(** * AI Platform runner: training-job submission and model deployment

    A shallow embedding of [tfx/extensions/google_cloud_ai_platform/runner.py]
    and the properties its specification states about it.

    The two public procedures, [start_aip_training] and
    [deploy_model_for_aip_prediction], are sequential scripts over a remote
    control plane.  They are embedded as computations in a small monad that
    threads a store of mutable mappings and a trace of the effects issued
    (log lines, remote calls, sleeps); an exception ends the computation.
    The replies of the remote service are an explicit input: a finite list
    of what successive [execute()] calls give back. *)

From Stdlib Require Import ZArith Ascii String List Lia Sorting.Permutation Sorting.Sorted.
From Stdlib Require Import DecimalString.
From stdpp Require Import base gmap strings list.

Import ListNotations.
Local Set Warnings "-register-all".
Local Open Scope Z_scope.
Local Open Scope list_scope.

(** ** Python values *)

(** The data that crosses this module is JSON-like: execution properties,
    job configurations and decoded replies.  A mapping keeps its items in
    insertion order, as a Python dict does. *)
Inductive value : Type :=
| VNone
| VBool (b : bool)
| VInt (z : Z)
| VStr (s : string)
| VList (l : list value)
| VDict (d : list (string * value)).

Abbreviation dict := (list (string * value)).

(** Exceptions the module raises or lets through.  [HttpError] carries the
    status of [e.resp.status] and the text of [str(e)]. *)
Inductive exn : Type :=
| KeyError (key : string)
| TypeError (msg : string)
| AttributeError (msg : string)
| RuntimeError (msg : string)
| HttpError (status : Z) (text : string).

(** [d.get(k)] *)
Fixpoint dict_get (d : dict) (k : string) : option value :=
  match d with
  | [] => None
  | (k', v) :: rest => if String.eqb k' k then Some v else dict_get rest k
  end.

(** [d[k] = v]: an existing key keeps its position, a new one goes last. *)
Fixpoint dict_set (d : dict) (k : string) (v : value) : dict :=
  match d with
  | [] => [(k, v)]
  | (k', v') :: rest =>
      if String.eqb k' k then (k', v) :: rest else (k', v') :: dict_set rest k v
  end.

(** The mapping left by [d.pop(k)]. *)
Fixpoint dict_remove (d : dict) (k : string) : dict :=
  match d with
  | [] => []
  | (k', v') :: rest =>
      if String.eqb k' k then rest else (k', v') :: dict_remove rest k
  end.

(** [k in d] *)
Definition dict_mem (d : dict) (k : string) : bool :=
  match dict_get d k with Some _ => true | None => false end.

(** Truth value of an object, as [not x] and [if x] test it. *)
Definition truthy (v : value) : bool :=
  match v with
  | VNone => false
  | VBool b => b
  | VInt z => negb (z =? 0)
  | VStr s => negb (String.eqb s EmptyString)
  | VList l => match l with [] => false | _ => true end
  | VDict d => match d with [] => false | _ => true end
  end.

(** Decimal rendering of an integer, as [str] and [json.dumps] give it. *)
Definition decimal (z : Z) : string := NilZero.string_of_int (Z.to_int z).

(** A list of [[key, value]] pairs read as a mapping, when it is one. *)
Fixpoint pairs_of (l : list value) : option dict :=
  match l with
  | [] => Some []
  | VList [VStr k; v] :: rest => option_map (cons (k, v)) (pairs_of rest)
  | _ => None
  end.

(** [self] after [self.update(other)] for a mapping [other]. *)
Definition dict_merge (self other : dict) : dict :=
  fold_left (fun acc kv => dict_set acc (fst kv) (snd kv)) other self.

(** [d.update( *args )] on a built-in dict: at most one positional argument
    is accepted, and the call evaluates to [None]; the merged mapping is the
    receiver, changed in place.  The result pairs the receiver after the
    call with the value of the call expression. *)
Definition dict_update (self : dict) (args : list value) : exn + (dict * value) :=
  match args with
  | [] => inr (self, VNone)
  | [VDict other] => inr (dict_merge self other, VNone)
  | [VList l] =>
      match pairs_of l with
      | Some other => inr (dict_merge self other, VNone)
      | None => inl (TypeError "cannot convert dictionary update sequence element")
      end
  | [_] => inl (TypeError "object is not iterable")
  | _ :: _ :: _ =>
      inl (TypeError ("update expected at most 1 argument, got "
                      +:+ decimal (Z.of_nat (length args))))
  end.

(** ** Effects *)

Inductive level : Type := Info | Warn | Error.

(** What the module does to the outside, in the order it does it.  A remote
    call is recorded when its [execute()] runs, with the arguments the
    request was built from. *)
Inductive event : Type :=
| ELog (lv : level) (msg : string)
| EBuild
| EJobsCreate (body : dict) (parent : string)
| EJobsGet (name : string)
| EModelsCreate (body : dict) (parent : string)
| EVersionsCreate (body : dict) (parent : string)
| EOperationsGet (name : value)
| ESetDefault (name : string)
| ESleep (seconds : Z).

(** A reply of the remote service to one [execute()]. *)
Inductive reply : Type :=
| Replied (v : value)
| Failed (e : exn).

Abbreviation loc := nat.

(** The store holds the mappings that are written in place, each under its
    address; the items of a mapping are data. *)
Record state : Type := mkState {
  heap : gmap loc dict;
  trace : list event
}.

(** How a computation ends: with a value, with an exception, or still
    waiting because the replies given to it are used up. *)
Inductive outcome (A : Type) : Type :=
| Return (a : A)
| Raise (e : exn)
| Pending.
Arguments Return {A} a.
Arguments Raise {A} e.
Arguments Pending {A}.

Definition M (A : Type) : Type := state -> outcome A * state.

Definition ret {A} (a : A) : M A := fun s => (Return a, s).

Definition bind {A B} (m : M A) (k : A -> M B) : M B :=
  fun s =>
    match m s with
    | (Return a, s') => k a s'
    | (Raise e, s') => (Raise e, s')
    | (Pending, s') => (Pending, s')
    end.

Definition raise {A} (e : exn) : M A := fun s => (Raise e, s).

Definition pending {A} : M A := fun s => (Pending, s).

Declare Scope py_scope.
Delimit Scope py_scope with py.
Notation "x <- c1 ;; c2" := (bind c1 (fun x => c2))
  (at level 100, c1 at next level, right associativity) : py_scope.
Notation "c1 ;;; c2" := (bind c1 (fun _ => c2))
  (at level 100, right associativity) : py_scope.
Local Open Scope py_scope.

Definition emit (e : event) : M unit :=
  fun s => (Return tt, mkState (heap s) (trace s ++ [e])).

Definition log (lv : level) (msg : string) : M unit := emit (ELog lv msg).

(** A remote call: the event is issued, then the reply is delivered. *)
Definition execute (e : event) (r : reply) : M value :=
  emit e ;;;
  match r with
  | Replied v => ret v
  | Failed x => raise x
  end.

(** A new mapping object with the given items. *)
Definition alloc (d : dict) : M loc :=
  fun s =>
    let l := fresh (dom (heap s)) in
    (Return l, mkState (<[l := d]> (heap s)) (trace s)).

(** The items of the mapping at [l]; the model does not follow unallocated
    addresses. *)
Definition read (l : loc) : M dict :=
  fun s =>
    match heap s !! l with
    | Some d => (Return d, s)
    | None => (Raise (TypeError "not a mapping"), s)
    end.

Definition write (l : loc) (d : dict) : M unit :=
  fun s => (Return tt, mkState (<[l := d]> (heap s)) (trace s)).

(** [m.copy()] *)
Definition copy (l : loc) : M loc := d <- read l ;; alloc d.

(** [m.get(k)] *)
Definition get (l : loc) (k : string) : M value :=
  d <- read l ;; ret (default VNone (dict_get d k)).

(** [m[k] = v] *)
Definition setitem (l : loc) (k : string) (v : value) : M unit :=
  d <- read l ;; write l (dict_set d k v).

(** [m.pop(k)] *)
Definition pop (l : loc) (k : string) : M value :=
  d <- read l ;;
  match dict_get d k with
  | Some v => write l (dict_remove d k) ;;; ret v
  | None => raise (KeyError k)
  end.

(** [v[k]] on a value *)
Definition getitem (v : value) (k : string) : M value :=
  match v with
  | VDict d =>
      match dict_get d k with
      | Some x => ret x
      | None => raise (KeyError k)
      end
  | _ => raise (TypeError "object is not subscriptable")
  end.

(** ** Strings *)

Definition dquote : ascii := ascii_of_nat 34.
Definition backslash : ascii := ascii_of_nat 92.

(** A number in decimal, padded with zeros on the left to [width] digits. *)
Fixpoint zero_pad (width : nat) (s : string) : string :=
  match width with
  | O => s
  | S w => if Nat.leb (S w) (String.length s) then s else zero_pad w (String "0" s)
  end.

(** [s.split(c)] *)
Fixpoint split_on (c : ascii) (s : string) : list string :=
  match s with
  | EmptyString => [EmptyString]
  | String a rest =>
      if Ascii.eqb a c then EmptyString :: split_on c rest
      else match split_on c rest with
           | [] => [String a EmptyString]
           | h :: t => String a h :: t
           end
  end.

(** ** JSON serialisation: [json.dumps(obj, sort_keys=True)] *)

Definition hex_digit (n : N) : ascii :=
  match n with
  | 0%N => "0" | 1%N => "1" | 2%N => "2" | 3%N => "3" | 4%N => "4"
  | 5%N => "5" | 6%N => "6" | 7%N => "7" | 8%N => "8" | 9%N => "9"
  | 10%N => "a" | 11%N => "b" | 12%N => "c" | 13%N => "d" | 14%N => "e"
  | _ => "f"
  end%char.

(** The encoder's escape of one character with [ensure_ascii] on: the quote
    and the backslash, the short escapes, and a four-digit escape for
    everything outside the printable range. *)
Definition escape_char (a : ascii) : string :=
  let n := N_of_ascii a in
  if (n =? 34)%N then String backslash (String dquote EmptyString)
  else if (n =? 92)%N then String backslash (String backslash EmptyString)
  else if (n =? 10)%N then String backslash "n"
  else if (n =? 13)%N then String backslash "r"
  else if (n =? 9)%N then String backslash "t"
  else if (n =? 12)%N then String backslash "f"
  else if (n =? 8)%N then String backslash "b"
  else if ((n <? 32) || (126 <? n))%N then
    String backslash
      (String "u" (String "0" (String "0"
         (String (hex_digit (n / 16)) (String (hex_digit (n mod 16)) EmptyString)))))
  else String a EmptyString.

Fixpoint escape (s : string) : string :=
  match s with
  | EmptyString => EmptyString
  | String a rest => escape_char a +:+ escape rest
  end.

Definition json_string (s : string) : string :=
  String dquote (escape s +:+ String dquote EmptyString).

(** Insertion of an item among items ordered by key. *)
Fixpoint insert_by_key {A} (x : string * A) (l : list (string * A)) : list (string * A) :=
  match l with
  | [] => [x]
  | y :: rest =>
      if String.leb (fst x) (fst y) then x :: y :: rest
      else y :: insert_by_key x rest
  end.

(** [sorted(d.items())]: the keys of a mapping differ, so the order of the
    items is the order of their keys. *)
Definition sort_items {A} (l : list (string * A)) : list (string * A) :=
  fold_right insert_by_key [] l.

Definition json_item (kv : string * string) : string :=
  json_string (fst kv) +:+ ": " +:+ snd kv.

(** The encoder.  Items are rendered and then put in key order; rendering
    does not look at the position of an item, so this is the text the
    encoder writes when it walks the sorted items. *)
Fixpoint json_dumps (v : value) : string :=
  match v with
  | VNone => "null"
  | VBool true => "true"
  | VBool false => "false"
  | VInt z => decimal z
  | VStr s => json_string s
  | VList l => "[" +:+ String.concat ", " (map json_dumps l) +:+ "]"
  | VDict d =>
      "{" +:+ String.concat ", "
        (map json_item (sort_items (map (fun kv => (fst kv, json_dumps (snd kv))) d)))
      +:+ "}"
  end.

(** ** Text of a value: [str] and [repr] of Python 3

    On a mapping or a list [str] is [repr], which shows every string inside
    in quotes.  Strings are taken as their bytes: the quote, the backslash
    and the control characters are escaped, every other byte is kept. *)

Definition squote : ascii := ascii_of_nat 39.

Fixpoint occurs (c : ascii) (s : string) : bool :=
  match s with
  | EmptyString => false
  | String a rest => Ascii.eqb a c || occurs c rest
  end.

Definition repr_char (quote a : ascii) : string :=
  let n := N_of_ascii a in
  if Ascii.eqb a quote || Ascii.eqb a backslash then String backslash (String a EmptyString)
  else if (n =? 9)%N then String backslash "t"
  else if (n =? 10)%N then String backslash "n"
  else if (n =? 13)%N then String backslash "r"
  else if ((n <? 32) || (n =? 127))%N then
    String backslash
      (String "x" (String (hex_digit (n / 16)) (String (hex_digit (n mod 16)) EmptyString)))
  else String a EmptyString.

Fixpoint repr_chars (quote : ascii) (s : string) : string :=
  match s with
  | EmptyString => EmptyString
  | String a rest => repr_char quote a +:+ repr_chars quote rest
  end.

(** [repr(s)]: single quotes, unless the string holds a single quote and no
    double quote. *)
Definition repr_string (s : string) : string :=
  let quote := if occurs squote s && negb (occurs dquote s) then dquote else squote in
  String quote (repr_chars quote s +:+ String quote EmptyString).

(** [repr(v)]; the items of a mapping come in the order they were entered. *)
Fixpoint py_repr (v : value) : string :=
  match v with
  | VNone => "None"
  | VBool true => "True"
  | VBool false => "False"
  | VInt z => decimal z
  | VStr s => repr_string s
  | VList l => "[" +:+ String.concat ", " (map py_repr l) +:+ "]"
  | VDict d =>
      "{" +:+ String.concat ", "
        (map (fun kv => repr_string (fst kv) +:+ ": " +:+ py_repr (snd kv)) d)
      +:+ "}"
  end.

(** ** Time *)

(** A naive [datetime.datetime]: calendar fields without a time zone. *)
Record datetime : Type := mkDatetime {
  year : Z; month : Z; day : Z; hour : Z; minute : Z; second : Z
}.

Definition valid_datetime (d : datetime) : Prop :=
  1000 <= year d <= 9999 /\ 1 <= month d <= 12 /\ 1 <= day d <= 31 /\
  0 <= hour d <= 23 /\ 0 <= minute d <= 59 /\ 0 <= second d <= 59.

(** [d.strftime('%Y%m%d%H%M%S')] *)
Definition strftime_YmdHMS (d : datetime) : string :=
  zero_pad 4 (decimal (year d)) +:+ zero_pad 2 (decimal (month d)) +:+
  zero_pad 2 (decimal (day d)) +:+ zero_pad 2 (decimal (hour d)) +:+
  zero_pad 2 (decimal (minute d)) +:+ zero_pad 2 (decimal (second d)).

(** The clock of the process at the time of a call: [now] is what
    [datetime.datetime.now()] returns, the wall-clock time in the time zone
    of the host; [utcnow] is the same instant in UTC. *)
Record clock : Type := mkClock {
  now : datetime;
  utcnow : datetime
}.

Definition _POLLING_INTERVAL_IN_SECONDS : Z := 30.

(** Compatibility overrides *)
Definition _TF_COMPATIBILITY_OVERRIDE : list (string * string) :=
  [("1.15", "1.14")]%string.

Fixpoint table_get {A} (t : list (string * A)) (k : string) : option A :=
  match t with
  | [] => None
  | (k', v) :: rest => if String.eqb k' k then Some v else table_get rest k
  end.

Definition _PYTHON_VERSIONS : list (Z * string) := [(2, "2.7"); (3, "3.5")]%string.

Fixpoint ztable_get {A} (t : list (Z * A)) (k : Z) : option A :=
  match t with
  | [] => None
  | (k', v) :: rest => if k' =? k then Some v else ztable_get rest k
  end.

(** [_get_tf_runtime_version()], given [tf.__version__] *)
Definition _get_tf_runtime_version (tf_version_full : string) : M string :=
  let tf_version := String.concat "." (firstn 2 (split_on "." tf_version_full)) in
  (if String.prefix "2" tf_version
   then log Warn ("tensorflow 2.x may not be supported on CAIP predction service yet, "
                  +:+ "please check https://cloud.google.com/ml-engine/docs/runtime-version-list to ensure.")
   else ret tt) ;;;
  ret (default tf_version (table_get _TF_COMPATIBILITY_OVERRIDE tf_version)).

(** [_get_caip_python_version()], given [sys.version_info.major] *)
Definition _get_caip_python_version (major : Z) : M string :=
  match ztable_get _PYTHON_VERSIONS major with
  | Some v => ret v
  | None => raise (KeyError (decimal major))
  end.

(** [try: m  except errors.HttpError as e: h e] *)
Definition catch_http {A} (m : M A) (h : Z -> string -> M A) : M A :=
  fun s =>
    match m s with
    | (Raise (HttpError status text), s') => h status text s'
    | r => r
    end.

(** [m.update( *args )] on the mapping at [l] *)
Definition update (l : loc) (args : list value) : M value :=
  d <- read l ;;
  match dict_update d args with
  | inl e => raise e
  | inr (d', v) => write l d' ;;; ret v
  end.

(** [state not in ('SUCCEEDED', 'FAILED')], negated *)
Definition terminal (v : value) : bool :=
  match v with
  | VStr s => String.eqb s "SUCCEEDED" || String.eqb s "FAILED"
  | _ => false
  end.

Definition is_failed (v : value) : bool :=
  match v with
  | VStr s => String.eqb s "FAILED"
  | _ => false
  end.

(** The polling loop of [start_aip_training]: [response] is the reply in
    hand, [replies] what further [request.execute()] calls will give. *)
Fixpoint wait_for_job (job_name : string) (replies : list reply) (response : value)
  : M value :=
  st <- getitem response "state" ;;
  if terminal st then ret response
  else
    emit (ESleep _POLLING_INTERVAL_IN_SECONDS) ;;;
    match replies with
    | [] => pending
    | r :: rest =>
        response' <- execute (EJobsGet job_name) r ;;
        wait_for_job job_name rest response'
    end.

(** The first [request.execute()] of the job's status, then the loop. *)
Definition poll_job (job_name : string) (replies : list reply) : M value :=
  match replies with
  | [] => pending
  | r :: rest =>
      response <- execute (EJobsGet job_name) r ;;
      wait_for_job job_name rest response
  end.

(** What one call of [start_aip_training] meets outside: the clock, the
    reply to the job creation and the replies to the status requests. *)
Record training_world : Type := mkTrainingWorld {
  tw_clock : clock;
  jobs_create_reply : reply;
  jobs_get_replies : list reply
}.

(** What one call of [deploy_model_for_aip_prediction] meets outside. *)
Record serving_world : Type := mkServingWorld {
  models_create_reply : reply;
  versions_create_reply : reply;
  operations_get_replies : list reply;
  set_default_reply : reply
}.

(** ** Sample calls

    Concrete inputs on which the statements below are exercised. *)

Definition sample_state (st : string) : reply := Replied (VDict [("state", VStr st)]).

Definition sample_waiting : list reply :=
  [sample_state "PENDING"; sample_state "PENDING"; sample_state "RUNNING"].

Definition sample_clock : clock :=
  mkClock (mkDatetime 2019 11 4 9 30 7) (mkDatetime 2019 11 4 8 30 7).

Definition sample_training_world (final : string) : training_world :=
  mkTrainingWorld sample_clock (Replied VNone)
    (sample_waiting ++ [sample_state final]).

Definition sample_training_inputs : dict :=
  [("project", VStr "p1"); ("labels", VDict [("team", VStr "ml")])].

Definition sample_labels : dict :=
  [("tfx_version", VStr "0-15-0"); ("tfx_py_version", VStr "3-5")].

Definition sample_exec_properties : dict :=
  [("train_steps", VInt 100); ("module_file", VStr "gs://b/m.py")].

(** The store of the caller: the training inputs live at address 7. *)
Definition sample_store : state :=
  mkState {[ 7%nat := sample_training_inputs ]} [].

Definition sample_serving_args : dict :=
  [("model_name", VStr "m"); ("project_id", VStr "p1")].

Definition sample_error : value :=
  VDict [("code", VInt 3); ("message", VStr "bad model")].

Definition sample_serving_world (create : reply) (statuses : list reply) : serving_world :=
  mkServingWorld create (Replied (VDict [("name", VStr "op1")])) statuses (Replied VNone).

Section Runner.

(** The parts of the repository and of the interpreter the module reads:
    [version.__version__], [tf.__version__], [sys.version_info.major], the
    mapping [monitoring_utils.get_labels_dict()] returns, the artifact
    serialiser [artifact_utils.jsonify_artifact_dict], and [str] on a value
    that is not a string. *)
Variable tfx_version : string.
Variable tf_version : string.
Variable py_major : Z.
Variable get_labels_dict : dict.
Variable artifact_dict : Type.
Variable jsonify_artifact_dict : artifact_dict -> string.
Variable py_str : value -> string.

(** [str(v)], and therefore ['{}'.format(v)] and ['%s' % v] *)
Definition fmt (v : value) : string :=
  match v with
  | VStr s => s
  | _ => py_str v
  end.

Definition _TFX_IMAGE : string := "gcr.io/tfx-oss-public/tfx:" +:+ tfx_version.

(** The argument list handed to the container's entry point. *)
Definition job_args (executor_class_path json_inputs json_outputs
                     json_exec_properties : string) : list value :=
  [VStr "--executor_class_path"; VStr executor_class_path;
   VStr "--inputs"; VStr json_inputs;
   VStr "--outputs"; VStr json_outputs;
   VStr "--exec-properties"; VStr json_exec_properties].

(** The right-hand side of the labels assignment:
    [monitoring_utils.get_labels_dict().update(training_inputs.get('labels'), {})] *)
Definition labels_expr (training_inputs : loc) : M value :=
  labels <- alloc get_labels_dict ;;
  caller_labels <- get training_inputs "labels" ;;
  update labels [caller_labels; VDict []].

(** [job_id or 'tfx_%s' % datetime.datetime.now().strftime('%Y%m%d%H%M%S')] *)
Definition choose_job_id (job_id : option string) (c : clock) : string :=
  match job_id with
  | Some (String a rest) => String a rest
  | _ => "tfx_" +:+ strftime_YmdHMS (now c)
  end.

(** The second half of [start_aip_training]: submit the job, wait for it to
    finish, and report. *)
Definition submit_and_wait (job_spec : dict) (project : value)
    (project_id job_id : string) (w : training_world) : M unit :=
  log Info ("Submitting job='" +:+ job_id +:+ "', project='" +:+ fmt project
            +:+ "' to AI Platform.") ;;;
  execute (EJobsCreate job_spec project_id) (jobs_create_reply w) ;;;
  let job_name := project_id +:+ "/jobs/" +:+ job_id in
  response <- poll_job job_name (jobs_get_replies w) ;;
  st <- getitem response "state" ;;
  if is_failed st then
    let err_msg := "Job '" +:+ job_name +:+ "' did not succeed.  Detailed response "
                   +:+ fmt response +:+ "." in
    log Error err_msg ;;;
    raise (RuntimeError err_msg)
  else
    log Info ("Job '" +:+ job_name +:+ "' successful.").

(** The body of [start_aip_training].  The expression assigned to the
    [labels] entry is the parameter [labels_rhs], so that the steps after the
    assignment can be stated for whatever it evaluates to;
    [start_aip_training] below is the body with the expression as written. *)
Definition start_aip_training_body (labels_rhs : loc -> M value)
    (input_dict output_dict : artifact_dict) (exec_properties : dict)
    (executor_class_path : string) (training_inputs : loc)
    (job_id : option string) (w : training_world) : M unit :=
  training_inputs <- copy training_inputs ;;
  let json_inputs := jsonify_artifact_dict input_dict in
  log Info ("json_inputs='" +:+ json_inputs +:+ "'.") ;;;
  let json_outputs := jsonify_artifact_dict output_dict in
  log Info ("json_outputs='" +:+ json_outputs +:+ "'.") ;;;
  let json_exec_properties := json_dumps (VDict exec_properties) in
  log Info ("json_exec_properties='" +:+ json_exec_properties +:+ "'.") ;;;
  emit EBuild ;;;
  let job_args :=
    job_args executor_class_path json_inputs json_outputs json_exec_properties in
  master <- get training_inputs "masterConfig" ;;
  (if negb (truthy master)
   then setitem training_inputs "masterConfig" (VDict [("imageUri", VStr _TFX_IMAGE)])
   else ret tt) ;;;
  setitem training_inputs "args" (VList job_args) ;;;
  labels <- labels_rhs training_inputs ;;
  setitem training_inputs "labels" labels ;;;
  project <- pop training_inputs "project" ;;
  let project_id := "projects/" +:+ fmt project in
  let job_id := choose_job_id job_id (tw_clock w) in
  training_input <- read training_inputs ;;
  let job_spec := [("jobId", VStr job_id); ("trainingInput", VDict training_input)] in
  submit_and_wait job_spec project project_id job_id w.

Definition start_aip_training := start_aip_training_body labels_expr.

(** [deploy_status.get('done')] and ['error' in deploy_status] on a reply
    that is a mapping. *)
Definition value_get (v : value) (k : string) : M value :=
  match v with
  | VDict d => ret (default VNone (dict_get d k))
  | _ => raise (AttributeError "object has no attribute get")
  end.

Definition value_mem (v : value) (k : string) : M bool :=
  match v with
  | VDict d => ret (dict_mem d k)
  | _ => raise (TypeError "argument is not iterable")
  end.

(** The [while True] loop of [deploy_model_for_aip_prediction]. *)
Fixpoint wait_for_deploy (model_name : string) (op_name : value)
    (replies : list reply) (set_default : reply) : M unit :=
  match replies with
  | [] => pending
  | r :: rest =>
      deploy_status <- execute (EOperationsGet op_name) r ;;
      done_flag <- value_get deploy_status "done" ;;
      if truthy done_flag then
        response <- getitem deploy_status "response" ;;
        version_name <- getitem response "name" ;;
        execute (ESetDefault (model_name +:+ "/versions/" +:+ fmt version_name))
                set_default ;;;
        ret tt
      else
        has_error <- value_mem deploy_status "error" ;;
        if has_error : bool then
          err <- getitem deploy_status "error" ;;
          log Error (fmt err) ;;;
          raise (RuntimeError
                   ("Failed to deploy model to AI Platform for serving: " +:+ fmt err))
        else
          emit (ESleep _POLLING_INTERVAL_IN_SECONDS) ;;;
          log Info "Model still being deployed..." ;;;
          wait_for_deploy model_name op_name rest set_default
  end.

(** The model-creation step: a conflict is a warning, any other HTTP error
    is fatal. *)
Definition create_model (body : dict) (parent : string) (model_name : value)
    (r : reply) : M unit :=
  catch_http
    (execute (EModelsCreate body parent) r ;;; ret tt)
    (fun status text =>
       if status =? 409
       then log Warn ("Model " +:+ fmt model_name +:+ " already exists")
       else raise (RuntimeError ("AI Platform Push failed: " +:+ text))).

(** The second half of [deploy_model_for_aip_prediction]: push the version,
    wait for the operation, and report. *)
Definition push_version (body : dict) (model_name model_version serving_path : string)
    (w : serving_world) : M unit :=
  response <- execute (EVersionsCreate body model_name) (versions_create_reply w) ;;
  op_name <- getitem response "name" ;;
  wait_for_deploy model_name op_name (operations_get_replies w) (set_default_reply w) ;;;
  log Info ("Successfully deployed model " +:+ model_name +:+ " with version "
            +:+ model_version +:+ ", serving from " +:+ serving_path).

Definition deploy_model_for_aip_prediction (serving_path model_version : string)
    (ai_platform_serving_args : dict) (w : serving_world) : M unit :=
  log Info ("Deploying to model with version " +:+ model_version
            +:+ " to AI Platform for serving: "
            +:+ fmt (VDict ai_platform_serving_args)) ;;;
  model_name <- getitem (VDict ai_platform_serving_args) "model_name" ;;
  project_id <- getitem (VDict ai_platform_serving_args) "project_id" ;;
  let regions := default (VList []) (dict_get ai_platform_serving_args "regions") in
  runtime_version <- _get_tf_runtime_version tf_version ;;
  python_version <- _get_caip_python_version py_major ;;
  emit EBuild ;;;
  let body := [("name", model_name); ("regions", regions)] in
  let parent := "projects/" +:+ fmt project_id in
  create_model body parent model_name (models_create_reply w) ;;;
  let body :=
    [("name", VStr ("v" +:+ model_version));
     ("regions", regions);
     ("deployment_uri", VStr serving_path);
     ("runtime_version", VStr runtime_version);
     ("python_version", VStr python_version)] in
  let model_name := "projects/" +:+ fmt project_id +:+ "/models/" +:+ fmt model_name in
  push_version body model_name model_version serving_path w.

(** ** Vocabulary of the statements *)

(** A reply that carries a state other than the two terminal ones. *)
Definition nonterminal_reply (r : reply) : Prop :=
  exists d st, r = Replied (VDict d) /\ dict_get d "state" = Some st /\ terminal st = false.

(** The effects of polling through [n] non-terminal replies up to the reply
    that ends the loop: one status request per reply observed, a sleep
    between each two. *)
Fixpoint polling_events (name : string) (n : nat) : list event :=
  match n with
  | O => [EJobsGet name]
  | S k => EJobsGet name :: ESleep _POLLING_INTERVAL_IN_SECONDS :: polling_events name k
  end.

(** The effects of polling through [n] non-terminal replies with no further
    reply in sight. *)
Fixpoint waiting_events (name : string) (n : nat) : list event :=
  match n with
  | O => []
  | S k => EJobsGet name :: ESleep _POLLING_INTERVAL_IN_SECONDS :: waiting_events name k
  end.

(** The working copy after the default of [masterConfig]. *)
Definition with_master_config (d : dict) : dict :=
  if negb (truthy (default VNone (dict_get d "masterConfig")))
  then dict_set d "masterConfig" (VDict [("imageUri", VStr _TFX_IMAGE)])
  else d.

(** The [trainingInput] of the submitted job when the labels expression
    evaluates to [labels]. *)
Definition training_input (d : dict) (args : list value) (labels : value) : dict :=
  dict_remove
    (dict_set (dict_set (with_master_config d) "args" (VList args)) "labels" labels)
    "project".

(** The effects of the call before the job is submitted. *)
Definition preparation_log (input_dict output_dict : artifact_dict)
    (exec_properties : dict) : list event :=
  [ELog Info ("json_inputs='" +:+ jsonify_artifact_dict input_dict +:+ "'.");
   ELog Info ("json_outputs='" +:+ jsonify_artifact_dict output_dict +:+ "'.");
   ELog Info ("json_exec_properties='" +:+ json_dumps (VDict exec_properties) +:+ "'.");
   EBuild].

(** [keeps h0 m Q]: run from any store that holds the mappings of [h0]
    unchanged, [m] leaves them unchanged, only adds to the trace, and returns
    values that satisfy [Q]. *)
Definition keeps {A} (h0 : gmap loc dict) (m : M A) (Q : A -> Prop) : Prop :=
  forall s, h0 ⊆ heap s ->
    h0 ⊆ heap (snd (m s)) /\
    (exists tl, trace (snd (m s)) = trace s ++ tl) /\
    (forall a, fst (m s) = Return a -> Q a).

(** [t] occurs in [s]. *)
Definition contains (s t : string) : Prop := exists a b, s = a +:+ t +:+ b.

(** The runtime version [_get_tf_runtime_version] resolves to, and the
    warning it logs on the way. *)
Definition tf_runtime (v : string) : string :=
  let mm := String.concat "." (firstn 2 (split_on "." v)) in
  default mm (table_get _TF_COMPATIBILITY_OVERRIDE mm).

(** The warning [_get_tf_runtime_version] logs for a 2.x version. *)
Definition tf_runtime_log (v : string) : list event :=
  if String.prefix "2" (String.concat "." (firstn 2 (split_on "." v)))
  then [ELog Warn ("tensorflow 2.x may not be supported on CAIP predction service yet, "
                   +:+ "please check https://cloud.google.com/ml-engine/docs/runtime-version-list to ensure.")]
  else [].

(** The request for the new version, as the function builds it. *)
Definition version_body (model_version serving_path : string) (regions : value)
    (python_version : string) : dict :=
  [("name", VStr ("v" +:+ model_version));
   ("regions", regions);
   ("deployment_uri", VStr serving_path);
   ("runtime_version", VStr (tf_runtime tf_version));
   ("python_version", VStr python_version)].

(** The effects of a deployment up to and including the request that
    creates the model. *)
Definition model_creation_events (model_version : string) (args : dict)
    (model_name project_id : value) : list event :=
  [ELog Info ("Deploying to model with version " +:+ model_version
              +:+ " to AI Platform for serving: " +:+ fmt (VDict args))]
  ++ tf_runtime_log tf_version
  ++ [EBuild;
      EModelsCreate [("name", model_name);
                     ("regions", default (VList []) (dict_get args "regions"))]
                    ("projects/" +:+ fmt project_id)].

(** The value of a decimal digit. *)
Definition digit_of (a : ascii) : option Z :=
  let n := Z.of_N (N_of_ascii a) in
  if (48 <=? n) && (n <=? 57) then Some (n - 48) else None.

(** Reads [n] decimal digits off the front of [s]. *)
Fixpoint read_digits (n : nat) (s : string) (acc : Z) : option (Z * string) :=
  match n with
  | O => Some (acc, s)
  | S k =>
      match s with
      | String a rest =>
          match digit_of a with
          | Some d => read_digits k rest (10 * acc + d)
          | None => None
          end
      | EmptyString => None
      end
  end.

(** Reading a timestamp back, as [datetime.strptime(s, '%Y%m%d%H%M%S')]
    does: fixed-width fields, each within its range. *)
Definition strptime_YmdHMS (s : string) : option datetime :=
  match read_digits 4 s 0 with
  | Some (y, s) =>
  match read_digits 2 s 0 with
  | Some (mo, s) =>
  match read_digits 2 s 0 with
  | Some (d, s) =>
  match read_digits 2 s 0 with
  | Some (h, s) =>
  match read_digits 2 s 0 with
  | Some (mi, s) =>
  match read_digits 2 s 0 with
  | Some (se, EmptyString) =>
      if (1 <=? y) && (1 <=? mo) && (mo <=? 12) && (1 <=? d) && (d <=? 31)
         && (h <=? 23) && (mi <=? 59) && (se <=? 59)
      then Some (mkDatetime y mo d h mi se) else None
  | _ => None end
  | None => None end
  | None => None end
  | None => None end
  | None => None end
  | None => None end.

(** The timestamp of a job identifier of the form [tfx_YYYYMMDDHHMMSS]. *)
Definition job_id_timestamp (job_id : string) : option datetime :=
  match job_id with
  | String "t" (String "f" (String "x" (String "_" rest))) => strptime_YmdHMS rest
  | _ => None
  end.


(** The content of a value apart from the order in which the items of its
    mappings, at any depth, were entered: every mapping is put in key
    order. *)
Fixpoint canon (v : value) : value :=
  match v with
  | VList l => VList (map canon l)
  | VDict d => VDict (sort_items (map (fun kv => (fst kv, canon (snd kv))) d))
  | _ => v
  end.

(** Items in ascending key order. *)
Definition key_sorted {A} (l : list (string * A)) : Prop :=
  Sorted (fun a b => String.leb (fst a) (fst b) = true) l.

(** [emits P m]: whatever the store and the trace it starts from, [m] adds
    to the trace only events that satisfy [P]. *)
Definition emits {A} (P : event -> Prop) (m : M A) : Prop :=
  forall s, exists tl, trace (snd (m s)) = trace s ++ tl /\ Forall P tl.

(** What follows the submission of a training job: status requests for that
    job, sleeps of the polling interval, and log lines. *)
Definition polling_effect (job_name : string) (e : event) : Prop :=
  e = EJobsGet job_name \/ e = ESleep _POLLING_INTERVAL_IN_SECONDS \/
  exists lv msg, e = ELog lv msg.

(** A status of the operation that is neither done nor in error. *)
Definition in_progress_reply (r : reply) : Prop :=
  exists st, r = Replied (VDict st) /\
             truthy (default VNone (dict_get st "done")) = false /\
             dict_get st "error" = None.

(** The effects of polling the operation through [n] such statuses: for
    each, the status request, the sleep and the heartbeat. *)
Fixpoint deploy_waiting_events (op_name : value) (n : nat) : list event :=
  match n with
  | O => []
  | S k =>
      EOperationsGet op_name :: ESleep _POLLING_INTERVAL_IN_SECONDS
      :: ELog Info "Model still being deployed..." :: deploy_waiting_events op_name k
  end.

(** A component of a dotted version: a string without a dot. *)
Fixpoint no_dot (s : string) : bool :=
  match s with
  | EmptyString => true
  | String c rest => negb (Ascii.eqb c ".") && no_dot rest
  end.

(** The characters of [s] are printable ASCII, from the space to the
    tilde. *)
Fixpoint printable (s : string) : bool :=
  match s with
  | EmptyString => true
  | String c rest =>
      (32 <=? N_of_ascii c)%N && (N_of_ascii c <=? 126)%N && printable rest
  end.

(** Further sample inputs. *)
Definition sample_in_progress : list reply :=
  [Replied (VDict [("done", VBool false)]); Replied (VDict [])].

Definition sample_done : dict :=
  [("done", VBool true); ("response", VDict [("name", VStr "v7")])].

Definition sample_failing : dict :=
  [("done", VBool false); ("error", sample_error)].

Definition sample_store_of (d : dict) : state := mkState {[ 7%nat := d ]} [].

Definition sample_custom_inputs : dict :=
  [("project", VStr "p1"); ("scaleTier", VStr "BASIC");
   ("masterConfig", VDict [("imageUri", VStr "gcr.io/mine/trainer:1")])].

Definition sample_nested1 : dict :=
  [("a", VDict [("x", VInt 1); ("y", VInt 2)]); ("b", VInt 3)].

Definition sample_nested2 : dict :=
  [("b", VInt 3); ("a", VDict [("y", VInt 2); ("x", VInt 1)])].


(** The text of a mapping whose items, in the order given, are [items]:
    each key as a JSON string, a colon and a space, the text of the value;
    a comma and a space between two items. *)
Definition object_text (items : dict) : string :=
  "{" +:+ String.concat ", "
            (map (fun kv => json_string (fst kv) +:+ ": " +:+ json_dumps (snd kv)) items)
  +:+ "}".

(** * Properties *)

(** ** Running computations *)

Lemma bind_Return {A B} (m : M A) (k : A -> M B) s a s' :
  m s = (Return a, s') -> bind m k s = k a s'.
Proof. intros H. unfold bind. rewrite H. reflexivity. Qed.

Lemma bind_Raise {A B} (m : M A) (k : A -> M B) s e s' :
  m s = (Raise e, s') -> bind m k s = (Raise e, s').
Proof. intros H. unfold bind. rewrite H. reflexivity. Qed.

Lemma bind_Pending {A B} (m : M A) (k : A -> M B) s s' :
  m s = (Pending, s') -> bind m k s = (Pending, s').
Proof. intros H. unfold bind. rewrite H. reflexivity. Qed.

Lemma emit_run e s : emit e s = (Return tt, mkState (heap s) (trace s ++ [e])).
Proof. reflexivity. Qed.

Lemma execute_Replied e v s :
  execute e (Replied v) s = (Return v, mkState (heap s) (trace s ++ [e])).
Proof. reflexivity. Qed.

Lemma execute_Failed e x s :
  execute e (Failed x) s = (Raise x, mkState (heap s) (trace s ++ [e])).
Proof. reflexivity. Qed.

(** ** The polling loop of the training job *)

Lemma terminal_iff (st : value) :
  terminal st = true <-> st = VStr "SUCCEEDED" \/ st = VStr "FAILED".
Proof.
  destruct st; simpl; try (split; [discriminate | intros [H|H]; discriminate]).
  rewrite orb_true_iff, !String.eqb_eq.
  split; intros [H|H]; first [left; congruence | right; congruence].
Qed.

Lemma wait_for_job_terminal name replies d st s :
  dict_get d "state" = Some st -> terminal st = true ->
  wait_for_job name replies (VDict d) s = (Return (VDict d), s).
Proof.
  intros Hd Ht. destruct replies; simpl; unfold bind; simpl;
    rewrite Hd; simpl; rewrite Ht; reflexivity.
Qed.

Lemma wait_for_job_step name r rest d st s :
  dict_get d "state" = Some st -> terminal st = false ->
  wait_for_job name (r :: rest) (VDict d) s =
  (response' <- execute (EJobsGet name) r ;; wait_for_job name rest response')
    (mkState (heap s) (trace s ++ [ESleep _POLLING_INTERVAL_IN_SECONDS])).
Proof.
  intros Hd Ht. simpl. unfold bind at 1. simpl. rewrite Hd. simpl. rewrite Ht.
  reflexivity.
Qed.

Lemma wait_for_job_starved name d st s :
  dict_get d "state" = Some st -> terminal st = false ->
  wait_for_job name [] (VDict d) s =
  (Pending, mkState (heap s) (trace s ++ [ESleep _POLLING_INTERVAL_IN_SECONDS])).
Proof.
  intros Hd Ht. simpl. unfold bind. simpl. rewrite Hd. simpl. rewrite Ht.
  reflexivity.
Qed.

Lemma poll_job_cons name r rest s :
  poll_job name (r :: rest) s =
  (response <- execute (EJobsGet name) r ;; wait_for_job name rest response) s.
Proof. reflexivity. Qed.

Lemma poll_job_reaches_terminal name pre d st rest s :
  Forall nonterminal_reply pre ->
  dict_get d "state" = Some st -> terminal st = true ->
  poll_job name (pre ++ Replied (VDict d) :: rest) s =
  (Return (VDict d), mkState (heap s) (trace s ++ polling_events name (length pre))).
Proof.
  intros Hpre Hd Ht. revert s. induction Hpre as [|r pre Hr Hpre IH]; intros s.
  - simpl app. rewrite poll_job_cons.
    erewrite bind_Return by apply execute_Replied.
    erewrite wait_for_job_terminal by eassumption. reflexivity.
  - destruct Hr as (d0 & st0 & -> & Hd0 & Ht0).
    change ((Replied (VDict d0) :: pre) ++ Replied (VDict d) :: rest)
      with (Replied (VDict d0) :: (pre ++ Replied (VDict d) :: rest)).
    rewrite poll_job_cons. erewrite bind_Return by apply execute_Replied.
    destruct pre as [|r' pre'].
    + simpl app. erewrite wait_for_job_step by eassumption.
      erewrite bind_Return by apply execute_Replied.
      erewrite wait_for_job_terminal by eassumption.
      simpl. rewrite <- !app_assoc. reflexivity.
    + change ((r' :: pre') ++ Replied (VDict d) :: rest)
        with (r' :: (pre' ++ Replied (VDict d) :: rest)).
      erewrite wait_for_job_step by eassumption.
      change (r' :: (pre' ++ Replied (VDict d) :: rest))
        with ((r' :: pre') ++ Replied (VDict d) :: rest) in IH.
      specialize (IH (mkState (heap s)
                        ((trace s ++ [EJobsGet name]) ++ [ESleep _POLLING_INTERVAL_IN_SECONDS]))).
      change ((r' :: pre') ++ Replied (VDict d) :: rest)
        with (r' :: (pre' ++ Replied (VDict d) :: rest)) in IH.
      rewrite poll_job_cons in IH. simpl heap. simpl trace. rewrite IH.
      simpl. rewrite <- !app_assoc. reflexivity.
Qed.

Lemma poll_job_keeps_waiting name pre s :
  Forall nonterminal_reply pre ->
  poll_job name pre s =
  (Pending, mkState (heap s) (trace s ++ waiting_events name (length pre))).
Proof.
  intros Hpre. revert s. induction Hpre as [|r pre Hr Hpre IH]; intros s.
  - simpl. rewrite List.app_nil_r. destruct s; reflexivity.
  - destruct Hr as (d0 & st0 & -> & Hd0 & Ht0).
    rewrite poll_job_cons. erewrite bind_Return by apply execute_Replied.
    destruct pre as [|r' pre'].
    + erewrite wait_for_job_starved by eassumption.
      simpl. rewrite <- !app_assoc. reflexivity.
    + erewrite wait_for_job_step by eassumption.
      specialize (IH (mkState (heap s)
                        ((trace s ++ [EJobsGet name]) ++ [ESleep _POLLING_INTERVAL_IN_SECONDS]))).
      rewrite poll_job_cons in IH. simpl heap. simpl trace. rewrite IH.
      simpl. rewrite <- !app_assoc. reflexivity.
Qed.

Lemma wait_for_job_returns_terminal name replies response s resp s' :
  wait_for_job name replies response s = (Return resp, s') ->
  exists d st, resp = VDict d /\ dict_get d "state" = Some st /\ terminal st = true.
Proof.
  revert response s. induction replies as [|r rest IH]; intros response s H.
  - simpl in H. unfold bind in H.
    destruct response as [| | | | |d]; simpl in H; try discriminate.
    destruct (dict_get d "state") as [st|] eqn:Hd; simpl in H; [|discriminate].
    destruct (terminal st) eqn:Ht; simpl in H; [|discriminate].
    injection H as <- <-. eauto.
  - simpl in H. unfold bind at 1 in H.
    destruct response as [| | | | |d]; simpl in H; try discriminate.
    destruct (dict_get d "state") as [st|] eqn:Hd; simpl in H; [|discriminate].
    destruct (terminal st) eqn:Ht; simpl in H.
    + injection H as <- <-. eauto.
    + unfold bind at 1 in H. simpl in H. unfold bind at 1 in H.
      destruct r as [v|e]; simpl in H; [|discriminate].
      eapply IH. exact H.
Qed.

Lemma poll_job_returns_terminal name replies s resp s' :
  poll_job name replies s = (Return resp, s') ->
  exists d st, resp = VDict d /\ dict_get d "state" = Some st /\ terminal st = true.
Proof.
  destruct replies as [|r rest]; [discriminate|].
  rewrite poll_job_cons. unfold bind at 1.
  destruct r as [v|e]; simpl; [|discriminate].
  apply wait_for_job_returns_terminal.
Qed.

(** X20: the polling loop of lines 163-167, run on its own.  Whatever the
    sequence of status replies, it leaves exactly when the state in hand is
    SUCCEEDED or FAILED.  Through any run of other states it issues one
    status request per reply observed, sleeps the polling interval between
    two requests, and goes on waiting when the replies stop; whenever it
    returns, the reply returned is terminal. *)
Theorem polling_exits_exactly_on_terminal_state name pre s :
  Forall nonterminal_reply pre ->
  poll_job name pre s =
    (Pending, mkState (heap s) (trace s ++ waiting_events name (length pre))) /\
  (forall d st rest,
      dict_get d "state" = Some st ->
      st = VStr "SUCCEEDED" \/ st = VStr "FAILED" ->
      poll_job name (pre ++ Replied (VDict d) :: rest) s =
        (Return (VDict d),
         mkState (heap s) (trace s ++ polling_events name (length pre)))) /\
  (forall replies s0 resp s',
      poll_job name replies s0 = (Return resp, s') ->
      exists d st, resp = VDict d /\ dict_get d "state" = Some st /\
                   (st = VStr "SUCCEEDED" \/ st = VStr "FAILED")).
Proof.
  intros Hpre. split_and!.
  - apply poll_job_keeps_waiting, Hpre.
  - intros d st rest Hd Ht. apply terminal_iff in Ht.
    eapply poll_job_reaches_terminal; eassumption.
  - intros replies s0 resp s' H.
    destruct (poll_job_returns_terminal _ _ _ _ _ H) as (d & st & -> & Hd & Ht).
    apply terminal_iff in Ht. eauto.
Qed.

(** ** Store operations on an allocated mapping *)

Lemma read_run l d h t :
  h !! l = Some d -> read l (mkState h t) = (Return d, mkState h t).
Proof. intros H. unfold read. simpl. rewrite H. reflexivity. Qed.

Lemma copy_run l d s :
  heap s !! l = Some d ->
  copy l s = (Return (fresh (dom (heap s))),
              mkState (<[fresh (dom (heap s)) := d]> (heap s)) (trace s)).
Proof.
  intros H. unfold copy. destruct s as [h t]. simpl in *.
  erewrite bind_Return by (apply read_run; eassumption). reflexivity.
Qed.

Lemma get_run l k d h t :
  get l k (mkState (<[l := d]> h) t)
  = (Return (default VNone (dict_get d k)), mkState (<[l := d]> h) t).
Proof.
  unfold get. erewrite bind_Return by (apply read_run, lookup_insert_eq).
  reflexivity.
Qed.

Lemma setitem_run l k v d h t :
  setitem l k v (mkState (<[l := d]> h) t)
  = (Return tt, mkState (<[l := dict_set d k v]> h) t).
Proof.
  unfold setitem. erewrite bind_Return by (apply read_run, lookup_insert_eq).
  unfold write. simpl. rewrite insert_insert_eq. reflexivity.
Qed.

Lemma pop_run l k v d h t :
  dict_get d k = Some v ->
  pop l k (mkState (<[l := d]> h) t)
  = (Return v, mkState (<[l := dict_remove d k]> h) t).
Proof.
  intros H. unfold pop. erewrite bind_Return by (apply read_run, lookup_insert_eq).
  rewrite H. unfold bind, write, ret. simpl. rewrite insert_insert_eq. reflexivity.
Qed.

Lemma pop_missing l k d h t :
  dict_get d k = None ->
  pop l k (mkState (<[l := d]> h) t) = (Raise (KeyError k), mkState (<[l := d]> h) t).
Proof.
  intros H. unfold pop. erewrite bind_Return by (apply read_run, lookup_insert_eq).
  rewrite H. reflexivity.
Qed.

(** ** Mappings as item lists *)

Lemma dict_get_set_eq d k v : dict_get (dict_set d k v) k = Some v.
Proof.
  induction d as [|[k' v'] d IH]; simpl.
  - rewrite String.eqb_refl. reflexivity.
  - destruct (String.eqb k' k) eqn:E; simpl; rewrite E; [reflexivity | exact IH].
Qed.

Lemma dict_get_set_ne d k k' v :
  k <> k' -> dict_get (dict_set d k v) k' = dict_get d k'.
Proof.
  intros Hne. induction d as [|[k0 v0] d IH]; simpl.
  - destruct (String.eqb k k') eqn:E; [apply String.eqb_eq in E; contradiction | reflexivity].
  - destruct (String.eqb k0 k) eqn:E; simpl.
    + apply String.eqb_eq in E. subst k0.
      destruct (String.eqb k k') eqn:E'; [apply String.eqb_eq in E'; contradiction | reflexivity].
    + destruct (String.eqb k0 k'); [reflexivity | exact IH].
Qed.

Lemma dict_get_remove_ne d k k' :
  k <> k' -> dict_get (dict_remove d k) k' = dict_get d k'.
Proof.
  intros Hne. induction d as [|[k0 v0] d IH]; simpl; [reflexivity|].
  destruct (String.eqb k0 k) eqn:E; simpl.
  - apply String.eqb_eq in E. subst k0.
    destruct (String.eqb k k') eqn:E'; [apply String.eqb_eq in E'; contradiction | reflexivity].
  - destruct (String.eqb k0 k'); [reflexivity | exact IH].
Qed.

(** ** The payload of the training job *)

Lemma start_aip_training_body_run labels input_dict output_dict exec_properties
    executor_class_path l job_id w s d project :
  heap s !! l = Some d ->
  dict_get d "project" = Some project ->
  let args := job_args executor_class_path (jsonify_artifact_dict input_dict)
                (jsonify_artifact_dict output_dict) (json_dumps (VDict exec_properties)) in
  let ti := training_input d args labels in
  let jid := choose_job_id job_id (tw_clock w) in
  start_aip_training_body (fun _ => ret labels) input_dict output_dict exec_properties
    executor_class_path l job_id w s
  = submit_and_wait [("jobId", VStr jid); ("trainingInput", VDict ti)] project
      ("projects/" +:+ fmt project) jid w
      (mkState (<[fresh (dom (heap s)) := ti]> (heap s))
               (trace s ++ preparation_log input_dict output_dict exec_properties)).
Proof.
  intros Hl Hp args ti jid. unfold start_aip_training_body.
  erewrite bind_Return by (apply copy_run; eassumption).
  unfold log. repeat (erewrite bind_Return by apply emit_run; simpl heap; simpl trace).
  erewrite bind_Return by apply get_run.
  erewrite (bind_Return (if negb _ then _ else _)) with
    (s' := mkState (<[fresh (dom (heap s)) := with_master_config d]> (heap s)) _).
  2:{ unfold with_master_config. destruct (negb _).
      - apply setitem_run.
      - reflexivity. }
  erewrite bind_Return by apply setitem_run.
  erewrite bind_Return by reflexivity.
  erewrite bind_Return by apply setitem_run.
  erewrite bind_Return.
  2:{ apply pop_run. rewrite !dict_get_set_ne by discriminate.
      unfold with_master_config. destruct (negb _);
        [rewrite dict_get_set_ne by discriminate|]; exact Hp. }
  erewrite bind_Return by (apply read_run, lookup_insert_eq).
  rewrite <- !app_assoc. reflexivity.
Qed.

(** ** What a computation leaves alone *)

Lemma keeps_ret {A} h0 (a : A) (Q : A -> Prop) : Q a -> keeps h0 (ret a) Q.
Proof.
  intros HQ s Hs. simpl. split_and!; [exact Hs | exists []; symmetry; apply List.app_nil_r |].
  intros a' [= <-]. exact HQ.
Qed.

Lemma keeps_raise {A} h0 e (Q : A -> Prop) : keeps h0 (raise e) Q.
Proof.
  intros s Hs. simpl. split_and!; [exact Hs | exists []; symmetry; apply List.app_nil_r |].
  discriminate.
Qed.

Lemma keeps_pending {A} h0 (Q : A -> Prop) : keeps h0 pending Q.
Proof.
  intros s Hs. simpl. split_and!; [exact Hs | exists []; symmetry; apply List.app_nil_r |].
  discriminate.
Qed.

Lemma keeps_bind {A B} h0 (m : M A) (k : A -> M B) (P : A -> Prop) (Q : B -> Prop) :
  keeps h0 m P -> (forall a, P a -> keeps h0 (k a) Q) -> keeps h0 (bind m k) Q.
Proof.
  intros Hm Hk s Hs. destruct (Hm s Hs) as (H1 & [tl Htl] & H3).
  unfold bind. destruct (m s) as [[a| e|] s1] eqn:E; simpl in *.
  - destruct (Hk a (H3 a eq_refl) s1 H1) as (K1 & [tl' Htl'] & K3).
    split_and!; [exact K1 | | exact K3].
    exists (tl ++ tl'). rewrite Htl', Htl, app_assoc. reflexivity.
  - split_and!; [exact H1 | eauto | discriminate].
  - split_and!; [exact H1 | eauto | discriminate].
Qed.

Lemma keeps_weaken {A} h0 (m : M A) (P Q : A -> Prop) :
  keeps h0 m P -> (forall a, P a -> Q a) -> keeps h0 m Q.
Proof.
  intros Hm HPQ s Hs. destruct (Hm s Hs) as (H1 & H2 & H3).
  split_and!; [exact H1 | exact H2 | intros a Ha; apply HPQ, H3, Ha].
Qed.

Lemma keeps_emit h0 e : keeps h0 (emit e) (fun _ => True).
Proof.
  intros s Hs. simpl. split_and!; [exact Hs | eauto | trivial].
Qed.

Lemma keeps_execute h0 e r : keeps h0 (execute e r) (fun _ => True).
Proof.
  unfold execute. eapply keeps_bind; [apply keeps_emit|].
  intros _ _. destruct r; [apply keeps_ret; trivial | apply keeps_raise].
Qed.

Lemma keeps_read h0 l : keeps h0 (read l) (fun _ => True).
Proof.
  intros s Hs. unfold read. destruct (heap s !! l); simpl;
    (split_and!; [exact Hs | exists []; symmetry; apply List.app_nil_r | trivial]).
Qed.

Lemma fresh_outside (h0 h : gmap loc dict) : h0 ⊆ h -> h0 !! fresh (dom h) = None.
Proof.
  intros Hs. destruct (h0 !! fresh (dom h)) as [d|] eqn:E; [|reflexivity].
  exfalso. apply (is_fresh (dom h)). apply elem_of_dom.
  exists d. eapply lookup_weaken; eassumption.
Qed.

Lemma keeps_alloc h0 d : keeps h0 (alloc d) (fun l => h0 !! l = None).
Proof.
  intros s Hs. unfold alloc. simpl.
  pose proof (fresh_outside _ _ Hs) as Hf.
  split_and!.
  - etrans; [exact Hs|]. apply insert_subseteq.
    apply not_elem_of_dom, is_fresh.
  - exists []. symmetry. apply List.app_nil_r.
  - intros a [= <-]. exact Hf.
Qed.

Lemma keeps_write h0 l d : h0 !! l = None -> keeps h0 (write l d) (fun _ => True).
Proof.
  intros Hl s Hs. unfold write. simpl. split_and!.
  - apply map_subseteq_spec. intros l0 d0 H0.
    rewrite lookup_insert_ne by congruence.
    eapply lookup_weaken; eassumption.
  - exists []. symmetry. apply List.app_nil_r.
  - trivial.
Qed.

Lemma keeps_getitem h0 v k : keeps h0 (getitem v k) (fun _ => True).
Proof.
  unfold getitem. destruct v; try apply keeps_raise.
  destruct (dict_get d k); [apply keeps_ret; trivial | apply keeps_raise].
Qed.

Lemma keeps_copy h0 l : keeps h0 (copy l) (fun l' => h0 !! l' = None).
Proof.
  unfold copy. eapply keeps_bind; [apply keeps_read|]. intros d _. apply keeps_alloc.
Qed.

Lemma keeps_get h0 l k : keeps h0 (get l k) (fun _ => True).
Proof.
  unfold get. eapply keeps_bind; [apply keeps_read|]. intros d _.
  apply keeps_ret. trivial.
Qed.

Lemma keeps_setitem h0 l k v : h0 !! l = None -> keeps h0 (setitem l k v) (fun _ => True).
Proof.
  intros Hl. unfold setitem. eapply keeps_bind; [apply keeps_read|]. intros d _.
  apply keeps_write, Hl.
Qed.

Lemma keeps_pop h0 l k : h0 !! l = None -> keeps h0 (pop l k) (fun _ => True).
Proof.
  intros Hl. unfold pop. eapply keeps_bind; [apply keeps_read|]. intros d _.
  destruct (dict_get d k); [|apply keeps_raise].
  eapply keeps_bind; [apply keeps_write, Hl|]. intros _ _. apply keeps_ret. trivial.
Qed.

Lemma keeps_update h0 l args : h0 !! l = None -> keeps h0 (update l args) (fun _ => True).
Proof.
  intros Hl. unfold update. eapply keeps_bind; [apply keeps_read|]. intros d _.
  destruct (dict_update d args) as [e|[d' v]]; [apply keeps_raise|].
  eapply keeps_bind; [apply keeps_write, Hl|]. intros _ _. apply keeps_ret. trivial.
Qed.

Lemma keeps_wait_for_job h0 name replies response :
  keeps h0 (wait_for_job name replies response) (fun _ => True).
Proof.
  revert response. induction replies as [|r rest IH]; intros response; simpl.
  - eapply keeps_bind; [apply keeps_getitem|]. intros st _.
    destruct (terminal st); [apply keeps_ret; trivial|].
    eapply keeps_bind; [apply keeps_emit|]. intros _ _. apply keeps_pending.
  - eapply keeps_bind; [apply keeps_getitem|]. intros st _.
    destruct (terminal st); [apply keeps_ret; trivial|].
    eapply keeps_bind; [apply keeps_emit|]. intros _ _.
    eapply keeps_bind; [apply keeps_execute|]. intros v _. apply IH.
Qed.

Lemma keeps_poll_job h0 name replies :
  keeps h0 (poll_job name replies) (fun _ => True).
Proof.
  destruct replies as [|r rest]; simpl; [apply keeps_pending|].
  eapply keeps_bind; [apply keeps_execute|]. intros v _. apply keeps_wait_for_job.
Qed.

Lemma keeps_submit_and_wait h0 job_spec project project_id job_id w :
  keeps h0 (submit_and_wait job_spec project project_id job_id w) (fun _ => True).
Proof.
  unfold submit_and_wait, log.
  eapply keeps_bind; [apply keeps_emit|]. intros _ _.
  eapply keeps_bind; [apply keeps_execute|]. intros _ _.
  eapply keeps_bind; [apply keeps_poll_job|]. intros response _.
  eapply keeps_bind; [apply keeps_getitem|]. intros st _.
  destruct (is_failed st).
  - eapply keeps_bind; [apply keeps_emit|]. intros _ _. apply keeps_raise.
  - apply keeps_emit.
Qed.

Lemma keeps_labels_expr h0 l : keeps h0 (labels_expr l) (fun _ => True).
Proof.
  unfold labels_expr. eapply keeps_bind; [apply keeps_alloc|]. intros labels Hl.
  eapply keeps_bind; [apply keeps_get|]. intros v _.
  apply keeps_update, Hl.
Qed.

Lemma keeps_start_aip_training_body h0 labels_rhs input_dict output_dict
    exec_properties executor_class_path l job_id w :
  (forall l', h0 !! l' = None -> keeps h0 (labels_rhs l') (fun _ => True)) ->
  keeps h0 (start_aip_training_body labels_rhs input_dict output_dict
              exec_properties executor_class_path l job_id w) (fun _ => True).
Proof.
  intros Hlabels. unfold start_aip_training_body, log.
  eapply keeps_bind; [apply keeps_copy|]. intros l' Hl'.
  do 4 (eapply keeps_bind; [apply keeps_emit|]; intros _ _).
  eapply keeps_bind; [apply keeps_get|]. intros master _.
  eapply keeps_bind.
  { destruct (negb (truthy master));
      [apply keeps_setitem, Hl' | apply (keeps_ret _ tt (fun _ => True)); trivial]. }
  intros _ _.
  eapply keeps_bind; [apply keeps_setitem, Hl'|]. intros _ _.
  eapply keeps_bind; [apply Hlabels, Hl'|]. intros labels _.
  eapply keeps_bind; [apply keeps_setitem, Hl'|]. intros _ _.
  eapply keeps_bind; [apply keeps_pop, Hl'|]. intros project _.
  eapply keeps_bind; [apply keeps_read|]. intros ti _.
  apply keeps_submit_and_wait.
Qed.

(** C10: the mapping the caller passes as [training_inputs] is the same
    after the call as before it, however the call ends: the function works
    on a copy, and every mapping that existed before the call keeps its
    items.  This holds for the function as written and for its body with
    the labels expression evaluating to any value, where the [project] key
    is removed from, and the three entries are put into, the copy. *)
Theorem caller_training_inputs_unchanged input_dict output_dict exec_properties
    executor_class_path l job_id w s d :
  heap s !! l = Some d ->
  heap (snd (start_aip_training input_dict output_dict exec_properties
               executor_class_path l job_id w s)) !! l = Some d /\
  (forall labels,
      heap (snd (start_aip_training_body (fun _ => ret labels) input_dict output_dict
                   exec_properties executor_class_path l job_id w s)) !! l = Some d) /\
  (forall l0 d0, heap s !! l0 = Some d0 ->
      heap (snd (start_aip_training input_dict output_dict exec_properties
                   executor_class_path l job_id w s)) !! l0 = Some d0).
Proof.
  intros Hl.
  assert (Hrun : forall l0 d0, heap s !! l0 = Some d0 ->
             heap (snd (start_aip_training input_dict output_dict exec_properties
                          executor_class_path l job_id w s)) !! l0 = Some d0).
  { intros l0 d0 H0.
    destruct (keeps_start_aip_training_body (heap s) labels_expr input_dict output_dict
                exec_properties executor_class_path l job_id w) with (s := s)
      as (Hsub & _ & _); [intros l' _; apply keeps_labels_expr | reflexivity |].
    eapply lookup_weaken; eassumption. }
  split_and!; [apply Hrun, Hl | | exact Hrun].
  intros labels.
  destruct (keeps_start_aip_training_body (heap s) (fun _ => ret labels) input_dict
              output_dict exec_properties executor_class_path l job_id w) with (s := s)
    as (Hsub & _ & _); [intros l' _; apply keeps_ret; trivial | reflexivity |].
  eapply lookup_weaken; eassumption.
Qed.

(** ** The labels of the training job *)

Lemma dict_update_value self args d' v :
  dict_update self args = inr (d', v) -> v = VNone.
Proof.
  unfold dict_update. intros H.
  repeat match type of H with
         | match ?x with _ => _ end = _ => destruct x
         end; congruence.
Qed.

Lemma labels_expr_raises l d h t :
  labels_expr l (mkState (<[l := d]> h) t)
  = (Raise (TypeError "update expected at most 1 argument, got 2"),
     mkState (<[fresh (dom (<[l := d]> h)) := get_labels_dict]> (<[l := d]> h)) t).
Proof.
  unfold labels_expr. erewrite bind_Return by reflexivity. simpl heap. simpl trace.
  unfold get. erewrite bind_Return.
  2:{ erewrite bind_Return; [reflexivity|]. apply read_run.
      rewrite lookup_insert_ne; [apply lookup_insert_eq|].
      intros E. apply (is_fresh (dom (<[l := d]> h))). rewrite E.
      apply elem_of_dom. rewrite lookup_insert_eq. eauto. }
  unfold update. erewrite bind_Return by (apply read_run, lookup_insert_eq).
  destruct (default VNone (dict_get d "labels")); reflexivity.
Qed.

Lemma start_aip_training_run input_dict output_dict exec_properties
    executor_class_path l job_id w s d :
  heap s !! l = Some d ->
  let args := job_args executor_class_path (jsonify_artifact_dict input_dict)
                (jsonify_artifact_dict output_dict) (json_dumps (VDict exec_properties)) in
  let l1 := fresh (dom (heap s)) in
  let h1 := <[l1 := dict_set (with_master_config d) "args" (VList args)]> (heap s) in
  start_aip_training input_dict output_dict exec_properties
    executor_class_path l job_id w s
  = (Raise (TypeError "update expected at most 1 argument, got 2"),
     mkState (<[fresh (dom h1) := get_labels_dict]> h1)
             (trace s ++ preparation_log input_dict output_dict exec_properties)).
Proof.
  intros Hl args l1 h1. unfold start_aip_training, start_aip_training_body.
  erewrite bind_Return by (apply copy_run; eassumption).
  unfold log. repeat (erewrite bind_Return by apply emit_run; simpl heap; simpl trace).
  erewrite bind_Return by apply get_run.
  erewrite (bind_Return (if negb _ then _ else _)) with
    (s' := mkState (<[fresh (dom (heap s)) := with_master_config d]> (heap s)) _).
  2:{ unfold with_master_config. destruct (negb _).
      - apply setitem_run.
      - reflexivity. }
  erewrite bind_Return by apply setitem_run.
  erewrite bind_Raise by apply labels_expr_raises.
  rewrite <- !app_assoc. reflexivity.
Qed.

(** ** The verdict on the training job *)

Lemma append_assoc (a b c : string) : (a +:+ b) +:+ c = a +:+ b +:+ c.
Proof.
  induction a as [|x a IH]; [reflexivity|].
  change (String x ((a +:+ b) +:+ c) = String x (a +:+ b +:+ c)).
  f_equal. exact IH.
Qed.

Lemma submit_and_wait_run job_spec project project_id job_id w s x pre r st rest :
  jobs_create_reply w = Replied x ->
  jobs_get_replies w = pre ++ Replied (VDict r) :: rest ->
  Forall nonterminal_reply pre ->
  dict_get r "state" = Some st ->
  st = VStr "SUCCEEDED" \/ st = VStr "FAILED" ->
  let job_name := project_id +:+ "/jobs/" +:+ job_id in
  let err_msg := "Job '" +:+ job_name +:+ "' did not succeed.  Detailed response "
                 +:+ py_str (VDict r) +:+ "." in
  let tr := trace s
            ++ [ELog Info ("Submitting job='" +:+ job_id +:+ "', project='"
                           +:+ fmt project +:+ "' to AI Platform.");
                EJobsCreate job_spec project_id]
            ++ polling_events job_name (length pre) in
  submit_and_wait job_spec project project_id job_id w s
  = if is_failed st
    then (Raise (RuntimeError err_msg), mkState (heap s) (tr ++ [ELog Error err_msg]))
    else (Return tt,
          mkState (heap s) (tr ++ [ELog Info ("Job '" +:+ job_name +:+ "' successful.")])).
Proof.
  intros Hc Hg Hpre Hd Ht job_name err_msg tr. unfold submit_and_wait, log.
  erewrite bind_Return by apply emit_run.
  rewrite Hc, Hg. erewrite bind_Return by apply execute_Replied.
  erewrite bind_Return
    by (eapply poll_job_reaches_terminal; [exact Hpre | exact Hd | apply terminal_iff, Ht]).
  unfold getitem. rewrite Hd. erewrite bind_Return by reflexivity.
  subst tr. simpl heap. simpl trace.
  destruct (is_failed st).
  - erewrite bind_Return by apply emit_run. simpl. rewrite <- !app_assoc. reflexivity.
  - rewrite emit_run. simpl. rewrite <- !app_assoc. reflexivity.
Qed.

(** X21: the body of the function with the labels expression evaluating
    to any value [labels].  Once the job is submitted and a terminal state
    is observed after any number of non-terminal ones, the body ends by
    that state.  On FAILED it raises the runtime error whose message names
    the job resource and carries the text of the last status payload,
    after logging that message as an error; on SUCCEEDED it returns. *)
Theorem job_failed_or_succeeded labels input_dict output_dict exec_properties
    executor_class_path l job_id w s d project x pre r st rest :
  heap s !! l = Some d ->
  dict_get d "project" = Some project ->
  jobs_create_reply w = Replied x ->
  jobs_get_replies w = pre ++ Replied (VDict r) :: rest ->
  Forall nonterminal_reply pre ->
  dict_get r "state" = Some st ->
  let job_name := "projects/" +:+ fmt project +:+ "/jobs/"
                  +:+ choose_job_id job_id (tw_clock w) in
  let run := start_aip_training_body (fun _ => ret labels) input_dict output_dict
               exec_properties executor_class_path l job_id w s in
  (st = VStr "FAILED" ->
     exists msg,
       fst run = Raise (RuntimeError msg) /\
       msg = "Job '" +:+ job_name +:+ "' did not succeed.  Detailed response "
             +:+ py_str (VDict r) +:+ "." /\
       contains msg job_name /\ contains msg (py_str (VDict r)) /\
       exists tr, trace (snd run) = tr ++ [ELog Error msg]) /\
  (st = VStr "SUCCEEDED" -> fst run = Return tt).
Proof.
  intros Hl Hp Hc Hg Hpre Hd job_name run. subst run.
  erewrite start_aip_training_body_run by eassumption.
  split; intros Hst.
  - erewrite submit_and_wait_run by (eauto using append_assoc).
    subst st. simpl is_failed. cbv iota.
    rewrite (append_assoc "projects/" (fmt project)). fold job_name.
    eexists. split_and!; [reflexivity | reflexivity | | | eexists; reflexivity].
    + exists "Job '"%string. eexists. reflexivity.
    + exists ("Job '" +:+ job_name +:+ "' did not succeed.  Detailed response ")%string.
      exists "."%string. rewrite !append_assoc. reflexivity.
  - erewrite submit_and_wait_run by (eauto using append_assoc).
    subst st. reflexivity.
Qed.


(** ** The submitted payload *)

Lemma submit_and_wait_trace job_spec project project_id job_id w s :
  exists tl,
    trace (snd (submit_and_wait job_spec project project_id job_id w s))
    = trace s
      ++ ELog Info ("Submitting job='" +:+ job_id +:+ "', project='"
                    +:+ fmt project +:+ "' to AI Platform.")
      :: EJobsCreate job_spec project_id :: tl.
Proof.
  unfold submit_and_wait, log. erewrite bind_Return by apply emit_run.
  destruct (jobs_create_reply w) as [x|e].
  - erewrite bind_Return by apply execute_Replied.
    match goal with
    | |- context [bind ?m ?k ?s1] =>
        assert (Hk : keeps ∅ (bind m k) (fun _ : unit => True))
    end.
    { eapply keeps_bind; [apply keeps_poll_job|]. intros response _.
      eapply keeps_bind; [apply keeps_getitem|]. intros st _.
      destruct (is_failed st).
      - eapply keeps_bind; [apply keeps_emit|]. intros _ _. apply keeps_raise.
      - apply keeps_emit. }
    match goal with
    | |- context [bind ?m ?k ?s1] =>
        destruct (Hk s1) as (_ & [tl Htl] & _); [apply map_empty_subseteq|]
    end.
    exists tl. rewrite Htl. simpl. rewrite <- !app_assoc. reflexivity.
  - erewrite bind_Raise by apply execute_Failed.
    exists []. simpl. rewrite <- !app_assoc. reflexivity.
Qed.

(** Whatever the remote service replies, the body of the function submits
    the job it has prepared: the request carries the chosen job identifier
    and the working copy of the training inputs. *)
Lemma submitted_job_spec labels input_dict output_dict exec_properties
    executor_class_path l job_id w s d project :
  heap s !! l = Some d ->
  dict_get d "project" = Some project ->
  let args := job_args executor_class_path (jsonify_artifact_dict input_dict)
                (jsonify_artifact_dict output_dict) (json_dumps (VDict exec_properties)) in
  exists pre post,
    trace (snd (start_aip_training_body (fun _ => ret labels) input_dict output_dict
                  exec_properties executor_class_path l job_id w s))
    = pre
      ++ EJobsCreate [("jobId", VStr (choose_job_id job_id (tw_clock w)));
                      ("trainingInput", VDict (training_input d args labels))]
                     ("projects/" +:+ fmt project)
      :: post.
Proof.
  intros Hl Hp args.
  rewrite (start_aip_training_body_run labels input_dict output_dict exec_properties
             executor_class_path l job_id w s d project Hl Hp).
  match goal with
  | |- context [submit_and_wait ?a ?b ?c ?e ?f ?g] =>
      destruct (submit_and_wait_trace a b c e f g) as [tl Htl]; rewrite Htl
  end.
  cbn [trace].
  exists ((trace s ++ preparation_log input_dict output_dict exec_properties)
          ++ [ELog Info ("Submitting job='" +:+ choose_job_id job_id (tw_clock w)
                         +:+ "', project='" +:+ fmt project +:+ "' to AI Platform.")]), tl.
  rewrite <- (app_assoc _ [_]). reflexivity.
Qed.

(** X22: the body of the function with the labels expression evaluating
    to any value [labels].  When the caller's job configuration has no
    [masterConfig] entry, the job that the body submits carries, as the
    image of its master configuration, the fixed default image tagged with
    the release version of this package. *)
Theorem default_image_when_master_config_omitted labels input_dict output_dict
    exec_properties executor_class_path l job_id w s d project :
  heap s !! l = Some d ->
  dict_get d "project" = Some project ->
  dict_get d "masterConfig" = None ->
  exists pre post job_spec ti,
    trace (snd (start_aip_training_body (fun _ => ret labels) input_dict output_dict
                  exec_properties executor_class_path l job_id w s))
    = pre ++ EJobsCreate job_spec ("projects/" +:+ fmt project) :: post /\
    dict_get job_spec "trainingInput" = Some (VDict ti) /\
    dict_get ti "masterConfig"
    = Some (VDict [("imageUri", VStr ("gcr.io/tfx-oss-public/tfx:" +:+ tfx_version))]).
Proof.
  intros Hl Hp Hm.
  destruct (submitted_job_spec labels input_dict output_dict exec_properties
              executor_class_path l job_id w s d project Hl Hp) as (pre & post & Htr).
  exists pre, post. do 2 eexists. split_and!; [exact Htr | reflexivity |].
  unfold training_input, with_master_config. rewrite Hm. simpl negb. cbv iota.
  rewrite dict_get_remove_ne by discriminate.
  rewrite !dict_get_set_ne by discriminate.
  apply dict_get_set_eq.
Qed.

(** ** Version-compatibility resolution *)

(** C6: a numeric-engine version 1.15.x resolves to runtime version 1.14
    and 1.13.x to 1.13; interpreter major version 2 resolves to 2.7, 3 to
    3.5, and 4 fails with a key lookup error.  The resolution reads nothing
    but its argument: it leaves the store alone and issues no remote call
    (the trace is extended by log lines only). *)
Theorem version_compatibility_resolution :
  (forall patch s, _get_tf_runtime_version ("1.15." +:+ patch) s = (Return "1.14"%string, s)) /\
  (forall patch s, _get_tf_runtime_version ("1.13." +:+ patch) s = (Return "1.13"%string, s)) /\
  (forall s, _get_tf_runtime_version "1.15" s = (Return "1.14"%string, s)) /\
  (forall s, _get_caip_python_version 2 s = (Return "2.7"%string, s)) /\
  (forall s, _get_caip_python_version 3 s = (Return "3.5"%string, s)) /\
  (forall s, _get_caip_python_version 4 s = (Raise (KeyError "4"), s)) /\
  (forall v s, exists r logs,
      _get_tf_runtime_version v s = (Return r, mkState (heap s) (trace s ++ logs)) /\
      Forall (fun e => exists m, e = ELog Warn m) logs).
Proof.
  split_and!.
  - intros patch [h t]. unfold _get_tf_runtime_version. cbn.
    destruct (split_on "." patch); reflexivity.
  - intros patch [h t]. unfold _get_tf_runtime_version. cbn.
    destruct (split_on "." patch); reflexivity.
  - intros [h t]. reflexivity.
  - intros [h t]. reflexivity.
  - intros [h t]. reflexivity.
  - intros [h t]. reflexivity.
  - intros v [h t]. unfold _get_tf_runtime_version, bind, log, emit, ret.
    destruct (String.prefix _ _); cbn [heap trace].
    + eexists. eexists [_]. split; [reflexivity|].
      constructor; [eexists; reflexivity | constructor].
    + eexists. exists []. split; [rewrite List.app_nil_r; reflexivity|]. constructor.
Qed.

(** ** Deployment: model creation *)

Lemma _get_tf_runtime_version_run v s :
  _get_tf_runtime_version v s
  = (Return (tf_runtime v), mkState (heap s) (trace s ++ tf_runtime_log v)).
Proof.
  unfold _get_tf_runtime_version, tf_runtime_log, tf_runtime, log.
  destruct (String.prefix _ _).
  - erewrite bind_Return by apply emit_run. reflexivity.
  - erewrite bind_Return by reflexivity. rewrite List.app_nil_r.
    destruct s; reflexivity.
Qed.

Lemma deploy_run serving_path model_version args w s model_name project_id
    python_version :
  dict_get args "model_name" = Some model_name ->
  dict_get args "project_id" = Some project_id ->
  ztable_get _PYTHON_VERSIONS py_major = Some python_version ->
  let regions := default (VList []) (dict_get args "regions") in
  let full_name := "projects/" +:+ fmt project_id +:+ "/models/" +:+ fmt model_name in
  let s1 := mkState (heap s)
              (trace s ++ model_creation_events model_version args model_name project_id) in
  deploy_model_for_aip_prediction serving_path model_version args w s
  = match models_create_reply w with
    | Replied _ =>
        push_version (version_body model_version serving_path regions python_version)
          full_name model_version serving_path w s1
    | Failed (HttpError status text) =>
        if status =? 409
        then push_version (version_body model_version serving_path regions python_version)
               full_name model_version serving_path w
               (mkState (heap s)
                  (trace s1 ++ [ELog Warn ("Model " +:+ fmt model_name +:+ " already exists")]))
        else (Raise (RuntimeError ("AI Platform Push failed: " +:+ text)), s1)
    | Failed e => (Raise e, s1)
    end.
Proof.
  intros Hm Hp Hv regions full_name s1.
  unfold deploy_model_for_aip_prediction, log.
  erewrite bind_Return by apply emit_run.
  unfold getitem at 1 2. rewrite Hm, Hp.
  do 2 erewrite bind_Return by reflexivity.
  erewrite bind_Return by apply _get_tf_runtime_version_run.
  unfold _get_caip_python_version. rewrite Hv.
  erewrite bind_Return by reflexivity.
  erewrite bind_Return by apply emit_run.
  assert (Hs1 : forall h, mkState h
            (((trace s ++ [ELog Info ("Deploying to model with version " +:+ model_version
                 +:+ " to AI Platform for serving: " +:+ fmt (VDict args))])
              ++ tf_runtime_log tf_version) ++ [EBuild]
             ++ [EModelsCreate [("name", model_name); ("regions", regions)]
                   ("projects/" +:+ fmt project_id)]) = mkState h (trace s1)).
  { intros h. unfold s1, model_creation_events. simpl trace.
    rewrite <- !app_assoc. reflexivity. }
  unfold create_model, catch_http.
  destruct (models_create_reply w) as [x | e].
  - erewrite bind_Return.
    2:{ erewrite bind_Return by apply execute_Replied. reflexivity. }
    simpl heap. simpl trace. rewrite <- app_assoc, Hs1. reflexivity.
  - unfold bind at 1. erewrite bind_Raise by apply execute_Failed.
    simpl heap. simpl trace. rewrite <- app_assoc, Hs1.
    destruct e as [k | m | m | m | status text]; try reflexivity.
    destruct (status =? 409); reflexivity.
Qed.

Lemma push_version_trace body model_name model_version serving_path w s :
  exists tl,
    trace (snd (push_version body model_name model_version serving_path w s))
    = trace s ++ EVersionsCreate body model_name :: tl.
Proof.
  unfold push_version.
  assert (Hmono : forall op h0, keeps h0
            (wait_for_deploy model_name op (operations_get_replies w)
               (set_default_reply w)) (fun _ => True)).
  { intros op h0. induction (operations_get_replies w) as [|r rest IH]; simpl;
      [apply keeps_pending|].
    eapply keeps_bind; [apply keeps_execute|]. intros st _.
    eapply keeps_bind with (P := fun _ => True).
    { unfold value_get. destruct st; try apply keeps_raise. apply keeps_ret. trivial. }
    intros done_flag _. destruct (truthy done_flag).
    - eapply keeps_bind; [apply keeps_getitem|]. intros response _.
      eapply keeps_bind; [apply keeps_getitem|]. intros vn _.
      eapply keeps_bind; [apply keeps_execute|]. intros _ _. apply keeps_ret. trivial.
    - eapply keeps_bind with (P := fun _ => True).
      { unfold value_mem. destruct st; try apply keeps_raise. apply keeps_ret. trivial. }
      intros [|] _.
      + eapply keeps_bind; [apply keeps_getitem|]. intros err _.
        eapply keeps_bind; [apply keeps_emit|]. intros _ _. apply keeps_raise.
      + eapply keeps_bind; [apply keeps_emit|]. intros _ _.
        eapply keeps_bind; [apply keeps_emit|]. intros _ _. exact IH. }
  destruct (versions_create_reply w) as [x|e].
  - erewrite bind_Return by apply execute_Replied.
    match goal with
    | |- context [bind ?m ?k ?s1] =>
        assert (Hk : keeps ∅ (bind m k) (fun _ : unit => True))
    end.
    { eapply keeps_bind; [apply keeps_getitem|]. intros op _.
      eapply keeps_bind; [apply Hmono|]. intros _ _. apply keeps_emit. }
    match goal with
    | |- context [bind ?m ?k ?s1] =>
        destruct (Hk s1) as (_ & [tl Htl] & _); [apply map_empty_subseteq|]
    end.
    exists tl. rewrite Htl. simpl. rewrite <- app_assoc. reflexivity.
  - erewrite bind_Raise by apply execute_Failed. exists []. reflexivity.
Qed.

(** C5: when the request that creates the model is answered with an HTTP
    error, a conflict (status 409) is logged as a warning and the call goes
    on to create the version; any other status ends the call with a runtime
    error that carries the text of the HTTP error, and no version is
    requested. *)
Theorem model_creation_conflict_is_not_fatal serving_path model_version args w s
    model_name project_id python_version status text :
  dict_get args "model_name" = Some model_name ->
  dict_get args "project_id" = Some project_id ->
  ztable_get _PYTHON_VERSIONS py_major = Some python_version ->
  models_create_reply w = Failed (HttpError status text) ->
  let run := deploy_model_for_aip_prediction serving_path model_version args w s in
  let created := trace s ++ model_creation_events model_version args model_name project_id in
  let full_name := "projects/" +:+ fmt project_id +:+ "/models/" +:+ fmt model_name in
  let body := version_body model_version serving_path
                (default (VList []) (dict_get args "regions")) python_version in
  (status = 409 ->
     run = push_version body full_name model_version serving_path w
             (mkState (heap s)
                (created ++ [ELog Warn ("Model " +:+ fmt model_name +:+ " already exists")])) /\
     exists tl,
       trace (snd run)
       = created ++ ELog Warn ("Model " +:+ fmt model_name +:+ " already exists")
                 :: EVersionsCreate body full_name :: tl) /\
  (status <> 409 ->
     run = (Raise (RuntimeError ("AI Platform Push failed: " +:+ text)),
            mkState (heap s) created)).
Proof.
  intros Hm Hp Hv Hr run created full_name body. subst run.
  rewrite (deploy_run serving_path model_version args w s model_name project_id
             python_version Hm Hp Hv).
  rewrite Hr. split; intros Hst.
  - subst status. simpl Z.eqb. cbv iota. split; [reflexivity|].
    match goal with
    | |- context [push_version ?a ?b ?c ?e ?f ?g] =>
        destruct (push_version_trace a b c e f g) as [tl Htl]; rewrite Htl
    end.
    exists tl. simpl trace. rewrite <- app_assoc. reflexivity.
  - destruct (Z.eqb_spec status 409) as [E|E]; [contradiction | reflexivity].
Qed.

(** ** Deployment: the end of the operation *)

(** Once the [done] flag of the operation is set, the loop goes for the
    default version without looking at the [error] field. *)
Lemma wait_for_deploy_done model_name op_name st rest set_default s :
  truthy (default VNone (dict_get st "done")) = true ->
  wait_for_deploy model_name op_name (Replied (VDict st) :: rest) set_default s
  = (response <- getitem (VDict st) "response" ;;
     version_name <- getitem response "name" ;;
     execute (ESetDefault (model_name +:+ "/versions/" +:+ fmt version_name)) set_default ;;;
     ret tt) (mkState (heap s) (trace s ++ [EOperationsGet op_name])).
Proof.
  intros Hdone. simpl.
  erewrite bind_Return by apply execute_Replied.
  erewrite bind_Return by reflexivity. rewrite Hdone. reflexivity.
Qed.

(** An operation that is reported done with an [error] field and, as the
    service does for a failed operation, without a [response]: the call ends
    with the key error of the missing [response], the error is not logged
    and no runtime error carries it. *)
Lemma wait_for_deploy_done_with_error model_name op_name st rest set_default s :
  truthy (default VNone (dict_get st "done")) = true ->
  dict_get st "response" = None ->
  wait_for_deploy model_name op_name (Replied (VDict st) :: rest) set_default s
  = (Raise (KeyError "response"),
     mkState (heap s) (trace s ++ [EOperationsGet op_name])).
Proof.
  intros Hdone Hresp. rewrite wait_for_deploy_done by exact Hdone.
  unfold getitem at 1. rewrite Hresp. reflexivity.
Qed.

(** The same with a [response] that names a version: the default version
    is set although the operation carries an error. *)
Lemma wait_for_deploy_done_sets_default model_name op_name st rest x s resp vn :
  truthy (default VNone (dict_get st "done")) = true ->
  dict_get st "response" = Some (VDict resp) ->
  dict_get resp "name" = Some vn ->
  wait_for_deploy model_name op_name (Replied (VDict st) :: rest) (Replied x) s
  = (Return tt,
     mkState (heap s)
       (trace s ++ [EOperationsGet op_name;
                    ESetDefault (model_name +:+ "/versions/" +:+ fmt vn)])).
Proof.
  intros Hdone Hresp Hname. rewrite wait_for_deploy_done by exact Hdone.
  unfold getitem at 1. rewrite Hresp. erewrite bind_Return by reflexivity.
  unfold getitem. rewrite Hname. erewrite bind_Return by reflexivity.
  erewrite bind_Return by apply execute_Replied.
  simpl. rewrite <- app_assoc. reflexivity.
Qed.

(** ** Serialisation of the execution properties *)

Lemma ascii_compare_N (a b : ascii) :
  Ascii.compare a b = N.compare (N_of_ascii a) (N_of_ascii b).
Proof. reflexivity. Qed.

Lemma string_compare_trans_le (s1 s2 s3 : string) :
  String.compare s1 s2 <> Gt -> String.compare s2 s3 <> Gt ->
  String.compare s1 s3 <> Gt.
Proof.
  revert s2 s3. induction s1 as [|a s1 IH]; intros [|b s2] [|c s3]; simpl;
    try congruence.
  rewrite !ascii_compare_N.
  destruct (N.compare_spec (N_of_ascii a) (N_of_ascii b)) as [E1|E1|E1];
    destruct (N.compare_spec (N_of_ascii b) (N_of_ascii c)) as [E2|E2|E2];
    destruct (N.compare_spec (N_of_ascii a) (N_of_ascii c)) as [E3|E3|E3];
    try congruence; try lia.
  intros H1 H2. eapply IH; eassumption.
Qed.

Lemma string_leb_trans (s1 s2 s3 : string) :
  String.leb s1 s2 = true -> String.leb s2 s3 = true -> String.leb s1 s3 = true.
Proof.
  unfold String.leb. intros H1 H2.
  pose proof (string_compare_trans_le s1 s2 s3) as H.
  destruct (String.compare s1 s2); try discriminate;
    destruct (String.compare s2 s3); try discriminate;
    destruct (String.compare s1 s3); try reflexivity;
    exfalso; apply H; congruence.
Qed.

Lemma string_leb_false (s1 s2 : string) :
  String.leb s1 s2 = false -> String.leb s2 s1 = true.
Proof.
  intros H. destruct (String.leb_total s1 s2) as [H'|H']; [congruence | exact H'].
Qed.

(** Two items with different keys go into an ordered list in either order
    with the same result. *)
Lemma insert_by_key_comm {A} (x y : string * A) (l : list (string * A)) :
  fst x <> fst y ->
  insert_by_key x (insert_by_key y l) = insert_by_key y (insert_by_key x l).
Proof.
  intros Hne.
  assert (Hxy : String.leb (fst x) (fst y) = negb (String.leb (fst y) (fst x))).
  { destruct (String.leb (fst x) (fst y)) eqn:Exy;
      destruct (String.leb (fst y) (fst x)) eqn:Eyx; try reflexivity.
    - exfalso. apply Hne. apply String.leb_antisym; assumption.
    - apply string_leb_false in Exy. congruence. }
  induction l as [|z l IH].
  - cbn [insert_by_key]. rewrite Hxy.
    destruct (String.leb (fst y) (fst x)); reflexivity.
  - cbn [insert_by_key].
    destruct (String.leb (fst y) (fst z)) eqn:Eyz;
      destruct (String.leb (fst x) (fst z)) eqn:Exz;
      cbn [insert_by_key]; rewrite ?Eyz, ?Exz.
    + rewrite Hxy. destruct (String.leb (fst y) (fst x)); cbn [negb];
        cbn [insert_by_key]; rewrite ?Eyz, ?Exz; reflexivity.
    + destruct (String.leb (fst x) (fst y)) eqn:Exy.
      * pose proof (string_leb_trans _ _ _ Exy Eyz). congruence.
      * cbn [insert_by_key]. rewrite ?Exz. reflexivity.
    + destruct (String.leb (fst y) (fst x)) eqn:Eyx.
      * pose proof (string_leb_trans _ _ _ Eyx Exz). congruence.
      * cbn [insert_by_key]. rewrite ?Eyz. reflexivity.
    + rewrite IH. reflexivity.
Qed.

(** Sorting forgets the order in which the items of a mapping came. *)
Lemma sort_items_Permutation {A} (l1 l2 : list (string * A)) :
  Permutation l1 l2 -> NoDup (map fst l1) -> sort_items l1 = sort_items l2.
Proof.
  induction 1 as [|x l1 l2 HP IH|x y l|l1 l2 l3 HP1 IH1 HP2 IH2]; intros Hnd; simpl.
  - reflexivity.
  - rewrite IH; [reflexivity|]. simpl in Hnd. apply NoDup_cons_1_2 in Hnd. exact Hnd.
  - apply insert_by_key_comm. simpl in Hnd.
    apply NoDup_cons_1_1 in Hnd. intros E. apply Hnd. rewrite E. left.
  - rewrite IH1 by exact Hnd. apply IH2.
    assert (HP : map fst l1 ≡ₚ map fst l2) by apply Permutation_map, HP1.
    rewrite <- HP. exact Hnd.
Qed.

Lemma json_dumps_Permutation (d1 d2 : dict) :
  NoDup (map fst d1) -> Permutation d1 d2 ->
  json_dumps (VDict d1) = json_dumps (VDict d2).
Proof.
  intros Hnd HP. simpl. do 4 f_equal.
  apply sort_items_Permutation.
  - apply Permutation_map, HP.
  - rewrite map_map. simpl. exact Hnd.
Qed.

(** The serialisation of nested mappings: the text depends on the content
    of a value only, at every depth. *)

Lemma value_nested_ind (P : value -> Prop) :
  P VNone -> (forall b, P (VBool b)) -> (forall z, P (VInt z)) ->
  (forall s, P (VStr s)) ->
  (forall l, Forall P l -> P (VList l)) ->
  (forall d, Forall (fun kv => P (snd kv)) d -> P (VDict d)) ->
  forall v, P v.
Proof.
  intros HN HB HI HS HL HD. fix IH 1. intros [| b | z | s | l | d].
  - exact HN.
  - apply HB.
  - apply HI.
  - apply HS.
  - apply HL. induction l as [|x l IHl]; constructor; [apply IH | exact IHl].
  - apply HD. induction d as [|[k x] d IHd]; constructor; [apply IH | exact IHd].
Qed.

Lemma map_insert_by_key {A B} (f : A -> B) (x : string * A) (l : list (string * A)) :
  map (fun kv => (fst kv, f (snd kv))) (insert_by_key x l)
  = insert_by_key (fst x, f (snd x)) (map (fun kv => (fst kv, f (snd kv))) l).
Proof.
  induction l as [|y l IH]; [reflexivity|].
  cbn [insert_by_key map fst]. destruct (String.leb (fst x) (fst y)).
  - reflexivity.
  - cbn [map]. rewrite IH. reflexivity.
Qed.

Lemma map_sort_items {A B} (f : A -> B) (l : list (string * A)) :
  map (fun kv => (fst kv, f (snd kv))) (sort_items l)
  = sort_items (map (fun kv => (fst kv, f (snd kv))) l).
Proof.
  induction l as [|x l IH]; [reflexivity|].
  cbn [sort_items fold_right map]. fold (sort_items l).
  rewrite map_insert_by_key, IH. reflexivity.
Qed.

Lemma insert_by_key_sorted {A} (x : string * A) (l : list (string * A)) :
  key_sorted l -> key_sorted (insert_by_key x l).
Proof.
  unfold key_sorted. induction 1 as [|y l Hl IH Hy]; cbn [insert_by_key].
  - repeat constructor.
  - destruct (String.leb (fst x) (fst y)) eqn:E.
    + constructor; [constructor; assumption | constructor; exact E].
    + constructor; [exact IH|].
      apply string_leb_false in E.
      destruct Hy as [|z l' Hz]; cbn [insert_by_key].
      * constructor. exact E.
      * destruct (String.leb (fst x) (fst z)); constructor; assumption.
Qed.

Lemma sort_items_sorted {A} (l : list (string * A)) : key_sorted (sort_items l).
Proof.
  induction l as [|x l IH]; [constructor|].
  apply insert_by_key_sorted, IH.
Qed.

Lemma sort_items_of_sorted {A} (l : list (string * A)) :
  key_sorted l -> sort_items l = l.
Proof.
  unfold key_sorted. induction 1 as [|y l Hl IH Hy]; [reflexivity|].
  cbn [sort_items fold_right]. fold (sort_items l). rewrite IH.
  destruct Hy as [|z l' Hz]; cbn [insert_by_key]; [reflexivity|].
  rewrite Hz. reflexivity.
Qed.

Lemma json_dumps_canon (v : value) : json_dumps (canon v) = json_dumps v.
Proof.
  induction v as [| b | z | s | l IH | d IH] using value_nested_ind;
    try reflexivity.
  - assert (E : map json_dumps (map canon l) = map json_dumps l).
    { induction IH as [|x l Hx Hl IHl]; [reflexivity|].
      cbn [map]. rewrite Hx, IHl. reflexivity. }
    cbn [canon json_dumps]. rewrite E. reflexivity.
  - assert (E : map (fun kv : string * value => (fst kv, json_dumps (snd kv)))
                  (map (fun kv : string * value => (fst kv, canon (snd kv))) d)
                = map (fun kv : string * value => (fst kv, json_dumps (snd kv))) d).
    { induction IH as [|x l Hx Hl IHl]; [reflexivity|].
      cbn [map fst snd]. rewrite Hx, IHl. reflexivity. }
    cbn [canon json_dumps].
    rewrite (map_sort_items json_dumps).
    rewrite (sort_items_of_sorted (sort_items _)) by apply sort_items_sorted.
    rewrite E. reflexivity.
Qed.

(** Values with the same content are serialised to the same text. *)
Lemma json_dumps_same_content (v1 v2 : value) :
  canon v1 = canon v2 -> json_dumps v1 = json_dumps v2.
Proof.
  intros H. rewrite <- (json_dumps_canon v1), <- (json_dumps_canon v2), H.
  reflexivity.
Qed.

(** Entering the items of a mapping in another order does not change its
    content. *)
Lemma canon_Permutation (d1 d2 : dict) :
  NoDup (map fst d1) -> Permutation d1 d2 -> canon (VDict d1) = canon (VDict d2).
Proof.
  intros Hnd HP. cbn [canon]. f_equal. apply sort_items_Permutation.
  - apply Permutation_map, HP.
  - rewrite map_map. exact Hnd.
Qed.

(** ** The default job identifier *)








(** * Further properties of the training job *)

Lemma dict_get_not_key (d : dict) (k : string) :
  k ∉ map fst d -> dict_get d k = None.
Proof.
  induction d as [|[k' v] d IH]; [reflexivity|].
  cbn [map fst]. rewrite not_elem_of_cons. intros [Hne Hd]. cbn [dict_get].
  destruct (String.eqb_spec k' k) as [E|E]; [congruence | apply IH, Hd].
Qed.

Lemma dict_get_remove_eq (d : dict) (k : string) :
  NoDup (map fst d) -> dict_get (dict_remove d k) k = None.
Proof.
  induction d as [|[k' v] d IH]; [reflexivity|].
  cbn [map fst]. intros Hnd. apply NoDup_cons in Hnd as [Hk Hnd].
  cbn [dict_remove]. destruct (String.eqb_spec k' k) as [E|E].
  - subst k'. apply dict_get_not_key, Hk.
  - cbn [dict_get]. destruct (String.eqb_spec k' k); [congruence | apply IH, Hnd].
Qed.

Lemma dict_set_keys (d : dict) (k : string) (v : value) :
  map fst (dict_set d k v)
  = if dict_mem d k then map fst d else map fst d ++ [k].
Proof.
  unfold dict_mem. induction d as [|[k' v'] d IH]; [reflexivity|].
  cbn [dict_set dict_get]. destruct (String.eqb k' k); [reflexivity|].
  cbn [map fst]. rewrite IH. destruct (dict_get d k); reflexivity.
Qed.

Lemma dict_mem_false (d : dict) (k : string) : dict_mem d k = false -> k ∉ map fst d.
Proof.
  unfold dict_mem. induction d as [|[k' v] d IH]; cbn [dict_get map fst].
  - intros _. apply not_elem_of_nil.
  - destruct (String.eqb_spec k' k) as [E|E]; [discriminate|].
    intros H. apply not_elem_of_cons. split; [congruence | apply IH, H].
Qed.

Lemma dict_set_NoDup (d : dict) (k : string) (v : value) :
  NoDup (map fst d) -> NoDup (map fst (dict_set d k v)).
Proof.
  intros Hnd. rewrite dict_set_keys. destruct (dict_mem d k) eqn:E; [exact Hnd|].
  apply NoDup_app. split_and!; [exact Hnd | | apply NoDup_singleton].
  intros x Hx Hx'. apply list_elem_of_singleton in Hx'. subst x.
  exact (dict_mem_false _ _ E Hx).
Qed.

Lemma with_master_config_NoDup (d : dict) :
  NoDup (map fst d) -> NoDup (map fst (with_master_config d)).
Proof.
  intros Hnd. unfold with_master_config. destruct (negb _); [|exact Hnd].
  apply dict_set_NoDup, Hnd.
Qed.

Lemma with_master_config_other (d : dict) (k : string) :
  k <> "masterConfig"%string -> dict_get (with_master_config d) k = dict_get d k.
Proof.
  intros Hk. unfold with_master_config. destruct (negb _); [|reflexivity].
  apply dict_get_set_ne. congruence.
Qed.

(** X1: as the function is written, every call on a mapping ends with the
    type error of the labels assignment: nothing is submitted, no remote
    call is made (the trace holds the three log lines and the client
    construction), and the caller's mapping still has its items. *)
Theorem start_aip_training_always_raises input_dict output_dict exec_properties
    executor_class_path l job_id w s d :
  heap s !! l = Some d ->
  fst (start_aip_training input_dict output_dict exec_properties
         executor_class_path l job_id w s)
  = Raise (TypeError "update expected at most 1 argument, got 2") /\
  trace (snd (start_aip_training input_dict output_dict exec_properties
                executor_class_path l job_id w s))
  = trace s ++ preparation_log input_dict output_dict exec_properties.
Proof.
  intros Hl.
  rewrite (start_aip_training_run input_dict output_dict exec_properties
             executor_class_path l job_id w s d Hl).
  split; reflexivity.
Qed.

(** X2: a job configuration without a [project] entry ends the call with
    the key error of the missing key, after the preparation and before
    anything is submitted.  (Body of the function, any labels value.) *)
Theorem missing_project_is_a_key_error labels input_dict output_dict exec_properties
    executor_class_path l job_id w s d :
  heap s !! l = Some d ->
  dict_get d "project" = None ->
  fst (start_aip_training_body (fun _ => ret labels) input_dict output_dict
         exec_properties executor_class_path l job_id w s)
  = Raise (KeyError "project") /\
  trace (snd (start_aip_training_body (fun _ => ret labels) input_dict output_dict
                exec_properties executor_class_path l job_id w s))
  = trace s ++ preparation_log input_dict output_dict exec_properties.
Proof.
  intros Hl Hp.
  assert (Hrun :
    start_aip_training_body (fun _ => ret labels) input_dict output_dict
      exec_properties executor_class_path l job_id w s
    = (Raise (KeyError "project"),
       mkState (<[fresh (dom (heap s)) :=
                    dict_set (dict_set (with_master_config d) "args"
                      (VList (job_args executor_class_path
                                (jsonify_artifact_dict input_dict)
                                (jsonify_artifact_dict output_dict)
                                (json_dumps (VDict exec_properties)))))
                      "labels" labels]> (heap s))
               (trace s ++ preparation_log input_dict output_dict exec_properties))).
  { unfold start_aip_training_body.
    erewrite bind_Return by (apply copy_run; eassumption).
    unfold log. repeat (erewrite bind_Return by apply emit_run; simpl heap; simpl trace).
    erewrite bind_Return by apply get_run.
    erewrite (bind_Return (if negb _ then _ else _)) with
      (s' := mkState (<[fresh (dom (heap s)) := with_master_config d]> (heap s)) _).
    2:{ unfold with_master_config. destruct (negb _).
        - apply setitem_run.
        - reflexivity. }
    erewrite bind_Return by apply setitem_run.
    erewrite bind_Return by reflexivity.
    erewrite bind_Return by apply setitem_run.
    erewrite bind_Raise.
    2:{ apply pop_missing. rewrite !dict_get_set_ne by discriminate.
        rewrite with_master_config_other by discriminate. exact Hp. }
    rewrite <- !app_assoc. reflexivity. }
  rewrite Hrun. split; reflexivity.
Qed.


(** X3: a [masterConfig] the caller supplies is submitted as it is when it
    is a true value; one that is present but false (an empty mapping,
    [None]) is replaced by the default image like a missing one.  (Body of
    the function, any labels value.) *)
Theorem caller_master_config_is_kept_when_true labels input_dict output_dict
    exec_properties executor_class_path l job_id w s d project mc :
  heap s !! l = Some d ->
  dict_get d "project" = Some project ->
  dict_get d "masterConfig" = Some mc ->
  exists pre post job_spec ti,
    trace (snd (start_aip_training_body (fun _ => ret labels) input_dict output_dict
                  exec_properties executor_class_path l job_id w s))
    = pre ++ EJobsCreate job_spec ("projects/" +:+ fmt project) :: post /\
    dict_get job_spec "trainingInput" = Some (VDict ti) /\
    dict_get ti "masterConfig"
    = Some (if truthy mc then mc
            else VDict [("imageUri", VStr ("gcr.io/tfx-oss-public/tfx:" +:+ tfx_version))]).
Proof.
  intros Hl Hp Hm.
  destruct (submitted_job_spec labels input_dict output_dict exec_properties
              executor_class_path l job_id w s d project Hl Hp) as (pre & post & Htr).
  exists pre, post. do 2 eexists. split_and!; [exact Htr | reflexivity |].
  unfold training_input, with_master_config. rewrite Hm.
  change (default VNone (Some mc)) with mc.
  rewrite dict_get_remove_ne by discriminate.
  rewrite !dict_get_set_ne by discriminate.
  destruct (truthy mc); cbn [negb]; [exact Hm | apply dict_get_set_eq].
Qed.

(** X4: the training input that is submitted is the caller's mapping with
    the [project] entry taken out, the [args] entry set to the four flags
    of the executor (whatever the caller had there), the [labels] entry set
    to the value of the labels expression, and every entry other than
    these and [masterConfig] as the caller gave it.  (Body of the function,
    any labels value; the keys of the caller's mapping are distinct.) *)
Theorem submitted_training_input labels input_dict output_dict exec_properties
    executor_class_path l job_id w s d project :
  heap s !! l = Some d ->
  dict_get d "project" = Some project ->
  NoDup (map fst d) ->
  exists pre post job_spec ti,
    trace (snd (start_aip_training_body (fun _ => ret labels) input_dict output_dict
                  exec_properties executor_class_path l job_id w s))
    = pre ++ EJobsCreate job_spec ("projects/" +:+ fmt project) :: post /\
    dict_get job_spec "trainingInput" = Some (VDict ti) /\
    dict_get ti "project" = None /\
    dict_get ti "args"
    = Some (VList [VStr "--executor_class_path"; VStr executor_class_path;
                   VStr "--inputs"; VStr (jsonify_artifact_dict input_dict);
                   VStr "--outputs"; VStr (jsonify_artifact_dict output_dict);
                   VStr "--exec-properties";
                   VStr (json_dumps (VDict exec_properties))]) /\
    dict_get ti "labels" = Some labels /\
    (forall k : string,
        k <> "project"%string -> k <> "args"%string -> k <> "labels"%string ->
        k <> "masterConfig"%string ->
        dict_get ti k = dict_get d k).
Proof.
  intros Hl Hp Hnd.
  destruct (submitted_job_spec labels input_dict output_dict exec_properties
              executor_class_path l job_id w s d project Hl Hp) as (pre & post & Htr).
  exists pre, post. do 2 eexists. split_and!; [exact Htr | reflexivity | | | |].
  - unfold training_input. apply dict_get_remove_eq.
    do 2 apply dict_set_NoDup. apply with_master_config_NoDup, Hnd.
  - unfold training_input. rewrite dict_get_remove_ne by discriminate.
    rewrite dict_get_set_ne by discriminate. apply dict_get_set_eq.
  - unfold training_input. rewrite dict_get_remove_ne by discriminate.
    apply dict_get_set_eq.
  - intros k H1 H2 H3 H4. unfold training_input.
    rewrite dict_get_remove_ne by congruence.
    rewrite !dict_get_set_ne by congruence.
    apply with_master_config_other, H4.
Qed.

Lemma bind_poll_job_Replied {B} name v replies (k : value -> M B) s :
  bind (poll_job name (Replied v :: replies)) k s
  = bind (wait_for_job name replies v) k
      (mkState (heap s) (trace s ++ [EJobsGet name])).
Proof. reflexivity. Qed.

Lemma bind_poll_job_Failed {B} name e replies (k : value -> M B) s :
  bind (poll_job name (Failed e :: replies)) k s
  = (Raise e, mkState (heap s) (trace s ++ [EJobsGet name])).
Proof. reflexivity. Qed.

Lemma submit_and_wait_first_get job_spec project project_id job_id w s x r replies :
  jobs_create_reply w = Replied x ->
  jobs_get_replies w = r :: replies ->
  exists tl,
    trace (snd (submit_and_wait job_spec project project_id job_id w s))
    = trace s
      ++ ELog Info ("Submitting job='" +:+ job_id +:+ "', project='"
                    +:+ fmt project +:+ "' to AI Platform.")
      :: EJobsCreate job_spec project_id
      :: EJobsGet (project_id +:+ "/jobs/" +:+ job_id) :: tl.
Proof.
  intros Hc Hg. unfold submit_and_wait, log.
  erewrite bind_Return by apply emit_run.
  rewrite Hc, Hg. erewrite bind_Return by apply execute_Replied.
  cbn [heap trace].
  destruct r as [v|e].
  - rewrite bind_poll_job_Replied. cbn [heap trace].
    match goal with
    | |- context [bind (wait_for_job ?n replies v) ?k ?s1] =>
        assert (Hk : keeps ∅ (bind (wait_for_job n replies v) k) (fun _ : unit => True));
        [| destruct (Hk s1) as (_ & [tl Htl] & _); [apply map_empty_subseteq|]]
    end.
    { eapply keeps_bind; [apply keeps_wait_for_job|]. intros response _.
      eapply keeps_bind; [apply keeps_getitem|]. intros st _.
      destruct (is_failed st).
      - eapply keeps_bind; [apply keeps_emit|]. intros _ _. apply keeps_raise.
      - apply keeps_emit. }
    exists tl. rewrite Htl. cbn [trace]. rewrite <- !app_assoc. reflexivity.
  - rewrite bind_poll_job_Failed. exists []. cbn [snd trace].
    rewrite <- !app_assoc. reflexivity.
Qed.

(** X5: a job identifier the caller gives is used as it is, in the job that
    is submitted and in the name under which its status is requested; an
    empty identifier counts as none and the default is generated.  (Body of
    the function, any labels value.) *)
Theorem caller_job_id_is_used labels input_dict output_dict exec_properties
    executor_class_path l w s d project a rest x r replies :
  heap s !! l = Some d ->
  dict_get d "project" = Some project ->
  jobs_create_reply w = Replied x ->
  jobs_get_replies w = r :: replies ->
  let job_id := String a rest in
  (exists pre post ti,
      trace (snd (start_aip_training_body (fun _ => ret labels) input_dict output_dict
                    exec_properties executor_class_path l (Some job_id) w s))
      = pre ++ EJobsCreate [("jobId", VStr job_id); ("trainingInput", VDict ti)]
                           ("projects/" +:+ fmt project)
            :: EJobsGet (("projects/" +:+ fmt project) +:+ "/jobs/" +:+ job_id) :: post) /\
  start_aip_training_body (fun _ => ret labels) input_dict output_dict
    exec_properties executor_class_path l (Some EmptyString) w s
  = start_aip_training_body (fun _ => ret labels) input_dict output_dict
      exec_properties executor_class_path l None w s.
Proof.
  intros Hl Hp Hc Hg job_id. split; [|reflexivity].
  rewrite (start_aip_training_body_run labels input_dict output_dict exec_properties
             executor_class_path l (Some job_id) w s d project Hl Hp).
  cbn [choose_job_id]. fold job_id.
  match goal with
  | |- context [submit_and_wait ?a1 ?a2 ?a3 ?a4 ?a5 ?a6] =>
      destruct (submit_and_wait_first_get a1 a2 a3 a4 a5 a6 x r replies Hc Hg)
        as [tl Htl]; rewrite Htl
  end.
  cbn [trace].
  exists ((trace s ++ preparation_log input_dict output_dict exec_properties)
          ++ [ELog Info ("Submitting job='" +:+ job_id +:+ "', project='"
                         +:+ fmt project +:+ "' to AI Platform.")]), tl.
  eexists. rewrite <- (app_assoc _ [_]). reflexivity.
Qed.


(** X6: when the request that creates the job fails, the failure ends the
    call as it is: it is neither caught nor retried, and no status is
    requested.  (Body of the function, any labels value.) *)
Theorem job_creation_failure_propagates labels input_dict output_dict exec_properties
    executor_class_path l job_id w s d project e :
  heap s !! l = Some d ->
  dict_get d "project" = Some project ->
  jobs_create_reply w = Failed e ->
  let run := start_aip_training_body (fun _ => ret labels) input_dict output_dict
               exec_properties executor_class_path l job_id w s in
  fst run = Raise e /\
  exists job_spec,
    trace (snd run)
    = trace s ++ preparation_log input_dict output_dict exec_properties
      ++ [ELog Info ("Submitting job='" +:+ choose_job_id job_id (tw_clock w)
                     +:+ "', project='" +:+ fmt project +:+ "' to AI Platform.");
          EJobsCreate job_spec ("projects/" +:+ fmt project)].
Proof.
  intros Hl Hp Hc run. subst run.
  rewrite (start_aip_training_body_run labels input_dict output_dict exec_properties
             executor_class_path l job_id w s d project Hl Hp).
  unfold submit_and_wait, log.
  erewrite bind_Return by apply emit_run.
  rewrite Hc. erewrite bind_Raise by apply execute_Failed.
  split; [reflexivity|]. eexists. cbn [snd trace heap].
  rewrite <- !app_assoc. reflexivity.
Qed.

Lemma poll_job_skip name pre r rest s :
  Forall nonterminal_reply pre ->
  poll_job name (pre ++ r :: rest) s
  = (response <- execute (EJobsGet name) r ;; wait_for_job name rest response)
      (mkState (heap s) (trace s ++ waiting_events name (length pre))).
Proof.
  intros Hpre. revert s. induction Hpre as [|r0 pre Hr Hpre IH]; intros s.
  - change (poll_job name (r :: rest) s
            = (response <- execute (EJobsGet name) r ;; wait_for_job name rest response)
                (mkState (heap s) (trace s ++ []))).
    rewrite List.app_nil_r. destruct s; reflexivity.
  - destruct Hr as (d0 & st0 & -> & Hd0 & Ht0).
    change ((Replied (VDict d0) :: pre) ++ r :: rest)
      with (Replied (VDict d0) :: (pre ++ r :: rest)).
    rewrite poll_job_cons. erewrite bind_Return by apply execute_Replied.
    assert (Hne : exists r1 tl1, pre ++ r :: rest = r1 :: tl1)
      by (destruct pre; cbn [app]; eauto).
    destruct Hne as (r1 & tl1 & E). rewrite E.
    erewrite wait_for_job_step by eassumption.
    rewrite <- poll_job_cons, <- E, IH.
    cbn [heap trace length waiting_events]. rewrite <- !app_assoc. reflexivity.
Qed.

(** X7: a failure of a status request, after any number of non-terminal
    replies, ends the call with that failure; a reply that carries no
    [state] ends it with the key error of the missing key.  In both cases
    the requests and sleeps up to that reply have been made and nothing is
    logged as the job's verdict.  (Body of the function, any labels
    value.) *)
Theorem status_failure_propagates labels input_dict output_dict exec_properties
    executor_class_path l job_id w s d project x pre bad rest :
  heap s !! l = Some d ->
  dict_get d "project" = Some project ->
  jobs_create_reply w = Replied x ->
  jobs_get_replies w = pre ++ bad :: rest ->
  Forall nonterminal_reply pre ->
  let run := start_aip_training_body (fun _ => ret labels) input_dict output_dict
               exec_properties executor_class_path l job_id w s in
  let job_name := ("projects/" +:+ fmt project) +:+ "/jobs/"
                  +:+ choose_job_id job_id (tw_clock w) in
  (forall e, bad = Failed e -> fst run = Raise e) /\
  (forall r, bad = Replied (VDict r) -> dict_get r "state" = None ->
             fst run = Raise (KeyError "state")) /\
  ((exists e, bad = Failed e) \/
   (exists r, bad = Replied (VDict r) /\ dict_get r "state" = None) ->
   exists job_spec,
     trace (snd run)
     = trace s ++ preparation_log input_dict output_dict exec_properties
       ++ [ELog Info ("Submitting job='" +:+ choose_job_id job_id (tw_clock w)
                      +:+ "', project='" +:+ fmt project +:+ "' to AI Platform.");
           EJobsCreate job_spec ("projects/" +:+ fmt project)]
       ++ polling_events job_name (length pre)).
Proof.
  intros Hl Hp Hc Hg Hpre run job_name. subst run.
  rewrite (start_aip_training_body_run labels input_dict output_dict exec_properties
             executor_class_path l job_id w s d project Hl Hp).
  unfold submit_and_wait, log.
  erewrite bind_Return by apply emit_run.
  rewrite Hc, Hg. erewrite bind_Return by apply execute_Replied.
  cbn [heap trace]. fold job_name.
  assert (Hev : forall t, (t ++ waiting_events job_name (length pre)) ++ [EJobsGet job_name]
                          = t ++ polling_events job_name (length pre)).
  { intros t. rewrite <- app_assoc. f_equal.
    induction (length pre) as [|n IHn]; [reflexivity|].
    cbn [waiting_events polling_events app]. rewrite IHn. reflexivity. }
  split_and!.
  - intros e ->. erewrite bind_Raise; [reflexivity|].
    rewrite poll_job_skip by exact Hpre.
    erewrite bind_Raise by apply execute_Failed. reflexivity.
  - intros r -> Hr. erewrite bind_Raise; [reflexivity|].
    rewrite poll_job_skip by exact Hpre.
    erewrite bind_Return by apply execute_Replied.
    destruct rest; cbn [wait_for_job]; unfold getitem; rewrite Hr; reflexivity.
  - intros [[e ->] | (r & -> & Hr)].
    + erewrite bind_Raise.
      2:{ rewrite poll_job_skip by exact Hpre.
          erewrite bind_Raise by apply execute_Failed. reflexivity. }
      eexists. cbn [snd trace heap]. rewrite Hev. rewrite <- !app_assoc. reflexivity.
    + erewrite bind_Raise.
      2:{ rewrite poll_job_skip by exact Hpre.
          erewrite bind_Return by apply execute_Replied.
          destruct rest; cbn [wait_for_job]; unfold getitem; rewrite Hr; reflexivity. }
      eexists. cbn [snd trace heap]. rewrite Hev. rewrite <- !app_assoc. reflexivity.
Qed.


Lemma emits_ret {A} P (a : A) : emits P (ret a).
Proof. intros s. exists []. split; [symmetry; apply List.app_nil_r | constructor]. Qed.

Lemma emits_raise {A} P e : emits P (@raise A e).
Proof. intros s. exists []. split; [symmetry; apply List.app_nil_r | constructor]. Qed.

Lemma emits_pending {A} P : emits P (@pending A).
Proof. intros s. exists []. split; [symmetry; apply List.app_nil_r | constructor]. Qed.

Lemma emits_emit (P : event -> Prop) e : P e -> emits P (emit e).
Proof. intros He s. exists [e]. split; [reflexivity | repeat constructor; exact He]. Qed.

Lemma emits_bind {A B} P (m : M A) (k : A -> M B) :
  emits P m -> (forall a, emits P (k a)) -> emits P (bind m k).
Proof.
  intros Hm Hk s. destruct (Hm s) as (tl & Htl & HP).
  unfold bind. destruct (m s) as [[a|e|] s1] eqn:E; cbn [snd] in *.
  - destruct (Hk a s1) as (tl' & Htl' & HP').
    exists (tl ++ tl'). split; [rewrite Htl', Htl, app_assoc; reflexivity|].
    apply Forall_app. split; assumption.
  - exists tl. split; assumption.
  - exists tl. split; assumption.
Qed.

Lemma emits_execute (P : event -> Prop) e r : P e -> emits P (execute e r).
Proof.
  intros He. unfold execute. apply emits_bind; [apply emits_emit, He|].
  intros _. destruct r; [apply emits_ret | apply emits_raise].
Qed.

Lemma emits_getitem P v k : emits P (getitem v k).
Proof.
  unfold getitem. destruct v; try apply emits_raise.
  destruct (dict_get d k); [apply emits_ret | apply emits_raise].
Qed.

Lemma emits_wait_for_job name replies response :
  emits (polling_effect name) (wait_for_job name replies response).
Proof.
  revert response. induction replies as [|r rest IH]; intros response;
    cbn [wait_for_job].
  - apply emits_bind; [apply emits_getitem|]. intros st.
    destruct (terminal st); [apply emits_ret|].
    apply emits_bind; [apply emits_emit; right; left; reflexivity|].
    intros _. apply emits_pending.
  - apply emits_bind; [apply emits_getitem|]. intros st.
    destruct (terminal st); [apply emits_ret|].
    apply emits_bind; [apply emits_emit; right; left; reflexivity|]. intros _.
    apply emits_bind; [apply emits_execute; left; reflexivity|]. intros v. apply IH.
Qed.

Lemma emits_poll_job name replies : emits (polling_effect name) (poll_job name replies).
Proof.
  destruct replies as [|r rest]; cbn [poll_job]; [apply emits_pending|].
  apply emits_bind; [apply emits_execute; left; reflexivity|].
  intros v. apply emits_wait_for_job.
Qed.

(** X8: the job is created once.  Whatever the service replies, after the
    one request that creates the job the call makes no remote call other
    than status requests for that very job, sleeps only the polling
    interval, and otherwise only logs: it never creates the job again and
    never cancels it.  (Body of the function, any labels value.) *)
Theorem job_is_created_once labels input_dict output_dict exec_properties
    executor_class_path l job_id w s d project :
  heap s !! l = Some d ->
  dict_get d "project" = Some project ->
  let job_name := ("projects/" +:+ fmt project) +:+ "/jobs/"
                  +:+ choose_job_id job_id (tw_clock w) in
  exists job_spec tl,
    trace (snd (start_aip_training_body (fun _ => ret labels) input_dict output_dict
                  exec_properties executor_class_path l job_id w s))
    = trace s ++ preparation_log input_dict output_dict exec_properties
      ++ [ELog Info ("Submitting job='" +:+ choose_job_id job_id (tw_clock w)
                     +:+ "', project='" +:+ fmt project +:+ "' to AI Platform.");
          EJobsCreate job_spec ("projects/" +:+ fmt project)]
      ++ tl /\
    Forall (polling_effect job_name) tl.
Proof.
  intros Hl Hp job_name.
  rewrite (start_aip_training_body_run labels input_dict output_dict exec_properties
             executor_class_path l job_id w s d project Hl Hp).
  unfold submit_and_wait, log.
  erewrite bind_Return by apply emit_run.
  cbn [heap trace]. fold job_name.
  destruct (jobs_create_reply w) as [x|e].
  - erewrite bind_Return by apply execute_Replied. cbn [heap trace].
    match goal with
    | |- context [bind (poll_job job_name ?rs) ?k ?s1] =>
        assert (Hk : emits (polling_effect job_name) (bind (poll_job job_name rs) k));
        [| destruct (Hk s1) as (tl & Htl & HP)]
    end.
    { apply emits_bind; [apply emits_poll_job|]. intros response.
      apply emits_bind; [apply emits_getitem|]. intros st.
      destruct (is_failed st).
      - apply emits_bind; [apply emits_emit; right; right; eauto|].
        intros _. apply emits_raise.
      - apply emits_emit. right; right; eauto. }
    eexists. exists tl. split; [|exact HP].
    rewrite Htl. cbn [trace]. rewrite <- !app_assoc. reflexivity.
  - erewrite bind_Raise by apply execute_Failed.
    eexists. exists []. split; [|constructor].
    cbn [snd trace heap]. rewrite <- !app_assoc. reflexivity.
Qed.


(** * Further properties of the deployment *)

Lemma ztable_get_python_versions (major : Z) :
  major <> 2 -> major <> 3 -> ztable_get _PYTHON_VERSIONS major = None.
Proof.
  intros H2 H3. cbn [ztable_get _PYTHON_VERSIONS].
  destruct (Z.eqb_spec 2 major); [congruence|].
  destruct (Z.eqb_spec 3 major); [congruence | reflexivity].
Qed.

(** X9: serving arguments without [model_name], or with it and without
    [project_id], end the deployment with the key error of the missing key
    right after the first log line: the client is not built and no remote
    call is made. *)
Theorem missing_serving_argument_is_a_key_error serving_path model_version args w s :
  let started :=
    mkState (heap s)
      (trace s ++ [ELog Info ("Deploying to model with version " +:+ model_version
                              +:+ " to AI Platform for serving: "
                              +:+ fmt (VDict args))]) in
  (dict_get args "model_name" = None ->
   deploy_model_for_aip_prediction serving_path model_version args w s
   = (Raise (KeyError "model_name"), started)) /\
  (forall model_name,
      dict_get args "model_name" = Some model_name ->
      dict_get args "project_id" = None ->
      deploy_model_for_aip_prediction serving_path model_version args w s
      = (Raise (KeyError "project_id"), started)).
Proof.
  intros started. split.
  - intros Hm. unfold deploy_model_for_aip_prediction, log.
    erewrite bind_Return by apply emit_run.
    unfold getitem at 1. rewrite Hm. reflexivity.
  - intros model_name Hm Hp. unfold deploy_model_for_aip_prediction, log.
    erewrite bind_Return by apply emit_run.
    unfold getitem at 1 2. rewrite Hm, Hp.
    erewrite bind_Return by reflexivity. reflexivity.
Qed.

(** X10: under an interpreter whose major version is neither 2 nor 3 the
    deployment ends with the key error of the version table before the
    client is built: no model and no version is requested. *)
Theorem unsupported_interpreter_stops_deployment serving_path model_version args w s
    model_name project_id :
  dict_get args "model_name" = Some model_name ->
  dict_get args "project_id" = Some project_id ->
  py_major <> 2 -> py_major <> 3 ->
  deploy_model_for_aip_prediction serving_path model_version args w s
  = (Raise (KeyError (decimal py_major)),
     mkState (heap s)
       (trace s ++ [ELog Info ("Deploying to model with version " +:+ model_version
                               +:+ " to AI Platform for serving: "
                               +:+ fmt (VDict args))]
        ++ tf_runtime_log tf_version)).
Proof.
  intros Hm Hp H2 H3. unfold deploy_model_for_aip_prediction, log.
  erewrite bind_Return by apply emit_run.
  unfold getitem at 1 2. rewrite Hm, Hp.
  do 2 erewrite bind_Return by reflexivity.
  erewrite bind_Return by apply _get_tf_runtime_version_run.
  unfold _get_caip_python_version.
  rewrite ztable_get_python_versions by assumption.
  erewrite bind_Raise by reflexivity.
  cbn [heap trace]. rewrite <- app_assoc. reflexivity.
Qed.

Lemma wait_for_deploy_in_progress model_name op_name st rest set_default s :
  truthy (default VNone (dict_get st "done")) = false ->
  dict_get st "error" = None ->
  wait_for_deploy model_name op_name (Replied (VDict st) :: rest) set_default s
  = wait_for_deploy model_name op_name rest set_default
      (mkState (heap s)
         (trace s ++ [EOperationsGet op_name; ESleep _POLLING_INTERVAL_IN_SECONDS;
                      ELog Info "Model still being deployed..."])).
Proof.
  intros Hdone Herr. cbn [wait_for_deploy].
  erewrite bind_Return by apply execute_Replied.
  erewrite bind_Return by reflexivity. rewrite Hdone.
  unfold value_mem, dict_mem. rewrite Herr.
  erewrite bind_Return by reflexivity.
  unfold log. do 2 erewrite bind_Return by apply emit_run.
  cbn [heap trace]. rewrite <- !app_assoc. reflexivity.
Qed.

Lemma wait_for_deploy_skip model_name op_name pre rest set_default s :
  Forall in_progress_reply pre ->
  wait_for_deploy model_name op_name (pre ++ rest) set_default s
  = wait_for_deploy model_name op_name rest set_default
      (mkState (heap s) (trace s ++ deploy_waiting_events op_name (length pre))).
Proof.
  intros Hpre. revert s. induction Hpre as [|r pre Hr Hpre IH]; intros s.
  - cbn [app length deploy_waiting_events]. rewrite List.app_nil_r.
    destruct s; reflexivity.
  - destruct Hr as (st & -> & Hdone & Herr).
    change ((Replied (VDict st) :: pre) ++ rest)
      with (Replied (VDict st) :: (pre ++ rest)).
    rewrite wait_for_deploy_in_progress by assumption.
    rewrite IH. cbn [heap trace length deploy_waiting_events].
    rewrite <- !app_assoc. reflexivity.
Qed.

Lemma wait_for_deploy_error model_name op_name st err rest set_default s :
  truthy (default VNone (dict_get st "done")) = false ->
  dict_get st "error" = Some err ->
  wait_for_deploy model_name op_name (Replied (VDict st) :: rest) set_default s
  = (Raise (RuntimeError ("Failed to deploy model to AI Platform for serving: "
                          +:+ fmt err)),
     mkState (heap s) (trace s ++ [EOperationsGet op_name; ELog Error (fmt err)])).
Proof.
  intros Hdone Herr. cbn [wait_for_deploy].
  erewrite bind_Return by apply execute_Replied.
  erewrite bind_Return by reflexivity. rewrite Hdone.
  unfold value_mem, dict_mem. rewrite Herr.
  erewrite bind_Return by reflexivity.
  unfold getitem. rewrite Herr. erewrite bind_Return by reflexivity.
  unfold log. erewrite bind_Return by apply emit_run.
  cbn [raise heap trace]. rewrite <- !app_assoc. reflexivity.
Qed.

(** The deployment up to the polling of the operation, when the model and
    the version are created without failure. *)
Lemma deploy_reaches_polling serving_path model_version args w s model_name
    project_id python_version x vr op_name :
  dict_get args "model_name" = Some model_name ->
  dict_get args "project_id" = Some project_id ->
  ztable_get _PYTHON_VERSIONS py_major = Some python_version ->
  models_create_reply w = Replied x ->
  versions_create_reply w = Replied (VDict vr) ->
  dict_get vr "name" = Some op_name ->
  let full_name := "projects/" +:+ fmt project_id +:+ "/models/" +:+ fmt model_name in
  let body := version_body model_version serving_path
                (default (VList []) (dict_get args "regions")) python_version in
  deploy_model_for_aip_prediction serving_path model_version args w s
  = (wait_for_deploy full_name op_name (operations_get_replies w) (set_default_reply w) ;;;
     log Info ("Successfully deployed model " +:+ full_name +:+ " with version "
               +:+ model_version +:+ ", serving from " +:+ serving_path))
      (mkState (heap s)
         (trace s ++ model_creation_events model_version args model_name project_id
          ++ [EVersionsCreate body full_name])).
Proof.
  intros Hm Hp Hv Hc Hvc Hn full_name body.
  rewrite (deploy_run serving_path model_version args w s model_name project_id
             python_version Hm Hp Hv).
  rewrite Hc. unfold push_version. rewrite Hvc.
  erewrite bind_Return by apply execute_Replied.
  unfold getitem. rewrite Hn. erewrite bind_Return by reflexivity.
  cbn [heap trace]. rewrite <- !app_assoc. reflexivity.
Qed.


(** X11: a deployment whose model and version requests succeed, and whose
    operation is reported in progress any number of times and then done
    with the name of the new version, requests the status once per report,
    sleeps the polling interval and logs a heartbeat after each report in
    progress, sets that version as the default under the model's full
    name, logs the success and returns. *)
Theorem deployment_sets_the_new_version_as_default serving_path model_version args w s
    model_name project_id python_version x vr op_name pre st rest response
    version_name y :
  dict_get args "model_name" = Some model_name ->
  dict_get args "project_id" = Some project_id ->
  ztable_get _PYTHON_VERSIONS py_major = Some python_version ->
  models_create_reply w = Replied x ->
  versions_create_reply w = Replied (VDict vr) ->
  dict_get vr "name" = Some op_name ->
  operations_get_replies w = pre ++ Replied (VDict st) :: rest ->
  Forall in_progress_reply pre ->
  truthy (default VNone (dict_get st "done")) = true ->
  dict_get st "response" = Some (VDict response) ->
  dict_get response "name" = Some version_name ->
  set_default_reply w = Replied y ->
  let full_name := "projects/" +:+ fmt project_id +:+ "/models/" +:+ fmt model_name in
  let body := version_body model_version serving_path
                (default (VList []) (dict_get args "regions")) python_version in
  deploy_model_for_aip_prediction serving_path model_version args w s
  = (Return tt,
     mkState (heap s)
       (trace s ++ model_creation_events model_version args model_name project_id
        ++ [EVersionsCreate body full_name]
        ++ deploy_waiting_events op_name (length pre)
        ++ [EOperationsGet op_name;
            ESetDefault (full_name +:+ "/versions/" +:+ fmt version_name);
            ELog Info ("Successfully deployed model " +:+ full_name +:+ " with version "
                       +:+ model_version +:+ ", serving from " +:+ serving_path)])).
Proof.
  intros Hm Hp Hv Hc Hvc Hn Ho Hpre Hdone Hresp Hname Hsd full_name body.
  rewrite (deploy_reaches_polling serving_path model_version args w s model_name
             project_id python_version x vr op_name Hm Hp Hv Hc Hvc Hn).
  rewrite Ho, Hsd. fold full_name. fold body.
  erewrite bind_Return.
  2:{ rewrite wait_for_deploy_skip by exact Hpre.
      eapply wait_for_deploy_done_sets_default; eassumption. }
  unfold log. rewrite emit_run. cbn [heap trace].
  rewrite <- !app_assoc. reflexivity.
Qed.

(** X12: when a status of the operation carries an [error] and is not
    done, after any number of statuses in progress, the deployment logs the
    error and ends with the runtime error that carries its detail; the
    default version is not set. *)
Theorem deployment_error_is_raised serving_path model_version args w s
    model_name project_id python_version x vr op_name pre st rest err :
  dict_get args "model_name" = Some model_name ->
  dict_get args "project_id" = Some project_id ->
  ztable_get _PYTHON_VERSIONS py_major = Some python_version ->
  models_create_reply w = Replied x ->
  versions_create_reply w = Replied (VDict vr) ->
  dict_get vr "name" = Some op_name ->
  operations_get_replies w = pre ++ Replied (VDict st) :: rest ->
  Forall in_progress_reply pre ->
  truthy (default VNone (dict_get st "done")) = false ->
  dict_get st "error" = Some err ->
  let full_name := "projects/" +:+ fmt project_id +:+ "/models/" +:+ fmt model_name in
  let body := version_body model_version serving_path
                (default (VList []) (dict_get args "regions")) python_version in
  deploy_model_for_aip_prediction serving_path model_version args w s
  = (Raise (RuntimeError ("Failed to deploy model to AI Platform for serving: "
                          +:+ fmt err)),
     mkState (heap s)
       (trace s ++ model_creation_events model_version args model_name project_id
        ++ [EVersionsCreate body full_name]
        ++ deploy_waiting_events op_name (length pre)
        ++ [EOperationsGet op_name; ELog Error (fmt err)])).
Proof.
  intros Hm Hp Hv Hc Hvc Hn Ho Hpre Hdone Herr full_name body.
  rewrite (deploy_reaches_polling serving_path model_version args w s model_name
             project_id python_version x vr op_name Hm Hp Hv Hc Hvc Hn).
  rewrite Ho. fold full_name. fold body.
  erewrite bind_Raise.
  2:{ rewrite wait_for_deploy_skip by exact Hpre.
      eapply wait_for_deploy_error; eassumption. }
  cbn [heap trace]. rewrite <- !app_assoc. reflexivity.
Qed.

(** X13: as long as the operation is only reported in progress, the
    deployment goes on polling: it neither returns nor raises, and the
    default version is not touched.  There is no bound on the number of
    rounds. *)
Theorem deployment_waits_while_in_progress serving_path model_version args w s
    model_name project_id python_version x vr op_name :
  dict_get args "model_name" = Some model_name ->
  dict_get args "project_id" = Some project_id ->
  ztable_get _PYTHON_VERSIONS py_major = Some python_version ->
  models_create_reply w = Replied x ->
  versions_create_reply w = Replied (VDict vr) ->
  dict_get vr "name" = Some op_name ->
  Forall in_progress_reply (operations_get_replies w) ->
  let full_name := "projects/" +:+ fmt project_id +:+ "/models/" +:+ fmt model_name in
  let body := version_body model_version serving_path
                (default (VList []) (dict_get args "regions")) python_version in
  deploy_model_for_aip_prediction serving_path model_version args w s
  = (Pending,
     mkState (heap s)
       (trace s ++ model_creation_events model_version args model_name project_id
        ++ [EVersionsCreate body full_name]
        ++ deploy_waiting_events op_name (length (operations_get_replies w)))).
Proof.
  intros Hm Hp Hv Hc Hvc Hn Hpre full_name body.
  rewrite (deploy_reaches_polling serving_path model_version args w s model_name
             project_id python_version x vr op_name Hm Hp Hv Hc Hvc Hn).
  fold full_name. fold body.
  erewrite bind_Pending.
  2:{ rewrite <- (List.app_nil_r (operations_get_replies w)) at 1.
      rewrite wait_for_deploy_skip by exact Hpre. reflexivity. }
  cbn [heap trace]. rewrite <- !app_assoc. reflexivity.
Qed.

(** X14: a failure of the request that creates the version ends the
    deployment as it is, a conflict included: only the creation of the
    model forgives a conflict.  A reply to that request without a [name]
    ends it with the key error of the missing key.  In both cases the
    operation is never polled. *)
Theorem version_creation_failure_propagates serving_path model_version args w s
    model_name project_id python_version x :
  dict_get args "model_name" = Some model_name ->
  dict_get args "project_id" = Some project_id ->
  ztable_get _PYTHON_VERSIONS py_major = Some python_version ->
  models_create_reply w = Replied x ->
  let full_name := "projects/" +:+ fmt project_id +:+ "/models/" +:+ fmt model_name in
  let body := version_body model_version serving_path
                (default (VList []) (dict_get args "regions")) python_version in
  let requested :=
    mkState (heap s)
      (trace s ++ model_creation_events model_version args model_name project_id
       ++ [EVersionsCreate body full_name]) in
  (forall e, versions_create_reply w = Failed e ->
             deploy_model_for_aip_prediction serving_path model_version args w s
             = (Raise e, requested)) /\
  (forall vr, versions_create_reply w = Replied (VDict vr) ->
              dict_get vr "name" = None ->
              deploy_model_for_aip_prediction serving_path model_version args w s
              = (Raise (KeyError "name"), requested)).
Proof.
  intros Hm Hp Hv Hc full_name body requested.
  rewrite (deploy_run serving_path model_version args w s model_name project_id
             python_version Hm Hp Hv).
  rewrite Hc. unfold push_version. split.
  - intros e He. rewrite He. erewrite bind_Raise by apply execute_Failed.
    unfold requested. cbn [heap trace]. rewrite <- !app_assoc. reflexivity.
  - intros vr Hvr Hn. rewrite Hvr. erewrite bind_Return by apply execute_Replied.
    unfold getitem. rewrite Hn. erewrite bind_Raise by reflexivity.
    unfold requested. cbn [heap trace]. rewrite <- !app_assoc. reflexivity.
Qed.

(** X15: a failure of the request that creates the model which is not an
    HTTP error is not caught: it ends the deployment as it is, unwrapped,
    and no version is requested. *)
Theorem other_model_creation_failure_propagates serving_path model_version args w s
    model_name project_id python_version e :
  dict_get args "model_name" = Some model_name ->
  dict_get args "project_id" = Some project_id ->
  ztable_get _PYTHON_VERSIONS py_major = Some python_version ->
  models_create_reply w = Failed e ->
  (forall status text, e <> HttpError status text) ->
  deploy_model_for_aip_prediction serving_path model_version args w s
  = (Raise e,
     mkState (heap s)
       (trace s ++ model_creation_events model_version args model_name project_id)).
Proof.
  intros Hm Hp Hv Hc He.
  rewrite (deploy_run serving_path model_version args w s model_name project_id
             python_version Hm Hp Hv).
  rewrite Hc. destruct e as [k | m | m | m | status text]; try reflexivity.
  exfalso. exact (He status text eq_refl).
Qed.


(** * Further properties of the version resolution *)

Lemma split_on_component (a rest : string) :
  no_dot a = true ->
  split_on "." (a +:+ String "." rest) = a :: split_on "." rest.
Proof.
  induction a as [|c a IH]; intros Ha.
  - reflexivity.
  - cbn [no_dot] in Ha. apply andb_true_iff in Ha as [Hc Ha].
    change (String c a +:+ String "." rest) with (String c (a +:+ String "." rest)).
    cbn [split_on]. rewrite IH by exact Ha.
    destruct (Ascii.eqb c "."); [discriminate | reflexivity].
Qed.

Lemma split_on_last_component (a : string) :
  no_dot a = true -> split_on "." a = [a].
Proof.
  induction a as [|c a IH]; intros Ha; [reflexivity|].
  cbn [no_dot] in Ha. apply andb_true_iff in Ha as [Hc Ha].
  cbn [split_on]. rewrite IH by exact Ha.
  destruct (Ascii.eqb c "."); [discriminate | reflexivity].
Qed.

Lemma split_on_nonempty (s : string) : split_on "." s <> [].
Proof.
  destruct s as [|c s]; cbn [split_on]; [discriminate|].
  destruct (Ascii.eqb c "."); [discriminate|].
  destruct (split_on "." s); discriminate.
Qed.

Lemma major_minor_of_version (major minor v : string) :
  no_dot major = true -> no_dot minor = true ->
  v = major +:+ String "." minor \/
  (exists rest, v = major +:+ String "." (minor +:+ String "." rest)) ->
  String.concat "." (firstn 2 (split_on "." v)) = major +:+ String "." minor.
Proof.
  intros Hma Hmi [-> | [rest ->]].
  - rewrite split_on_component by assumption.
    rewrite split_on_last_component by assumption. reflexivity.
  - rewrite split_on_component by assumption.
    rewrite split_on_component by assumption.
    destruct (split_on "." rest); reflexivity.
Qed.

(** X16: the runtime version resolved from an installed version
    [major.minor] or [major.minor.anything] is [major.minor], whatever
    follows the second component, except that 1.15 is resolved to 1.14.  A
    2.x version is resolved like any other, with one warning logged.  The
    version 1.15 is never the result, for any installed version. *)
Theorem runtime_version_is_major_minor major minor v s :
  no_dot major = true -> no_dot minor = true ->
  v = major +:+ String "." minor \/
  (exists rest, v = major +:+ String "." (minor +:+ String "." rest)) ->
  let mm := major +:+ String "." minor in
  _get_tf_runtime_version v s
  = (Return (if String.eqb mm "1.15" then "1.14"%string else mm),
     mkState (heap s)
       (trace s ++
        if String.prefix "2" mm
        then [ELog Warn ("tensorflow 2.x may not be supported on CAIP predction service yet, "
                         +:+ "please check https://cloud.google.com/ml-engine/docs/runtime-version-list to ensure.")]
        else [])) /\
  (forall v' s', fst (_get_tf_runtime_version v' s') <> Return "1.15"%string).
Proof.
  intros Hma Hmi Hv mm. split.
  - rewrite _get_tf_runtime_version_run. unfold tf_runtime, tf_runtime_log.
    rewrite (major_minor_of_version major minor v Hma Hmi Hv). fold mm.
    cbn [table_get _TF_COMPATIBILITY_OVERRIDE].
    rewrite (String.eqb_sym "1.15" mm).
    destruct (String.eqb mm "1.15"); reflexivity.
  - intros v' s'. rewrite _get_tf_runtime_version_run. cbn [fst].
    unfold tf_runtime. cbn [table_get _TF_COMPATIBILITY_OVERRIDE].
    destruct (String.eqb_spec "1.15" (String.concat "." (firstn 2 (split_on "." v'))))
      as [E|E]; cbv beta iota delta [default from_option id]; intros H;
      first [discriminate | congruence].
Qed.


(** X17: a failure of a status request of the operation, or of the request
    that sets the default version, ends the deployment as it is, after any
    number of statuses in progress: it is not retried, and the success is
    not logged. *)
Theorem operation_failure_propagates serving_path model_version args w s
    model_name project_id python_version x vr op_name pre rest e :
  dict_get args "model_name" = Some model_name ->
  dict_get args "project_id" = Some project_id ->
  ztable_get _PYTHON_VERSIONS py_major = Some python_version ->
  models_create_reply w = Replied x ->
  versions_create_reply w = Replied (VDict vr) ->
  dict_get vr "name" = Some op_name ->
  Forall in_progress_reply pre ->
  let full_name := "projects/" +:+ fmt project_id +:+ "/models/" +:+ fmt model_name in
  let body := version_body model_version serving_path
                (default (VList []) (dict_get args "regions")) python_version in
  let polled :=
    trace s ++ model_creation_events model_version args model_name project_id
    ++ [EVersionsCreate body full_name]
    ++ deploy_waiting_events op_name (length pre) in
  (operations_get_replies w = pre ++ Failed e :: rest ->
   deploy_model_for_aip_prediction serving_path model_version args w s
   = (Raise e, mkState (heap s) (polled ++ [EOperationsGet op_name]))) /\
  (forall st response version_name,
      operations_get_replies w = pre ++ Replied (VDict st) :: rest ->
      truthy (default VNone (dict_get st "done")) = true ->
      dict_get st "response" = Some (VDict response) ->
      dict_get response "name" = Some version_name ->
      set_default_reply w = Failed e ->
      deploy_model_for_aip_prediction serving_path model_version args w s
      = (Raise e,
         mkState (heap s)
           (polled ++ [EOperationsGet op_name;
                       ESetDefault (full_name +:+ "/versions/" +:+ fmt version_name)]))).
Proof.
  intros Hm Hp Hv Hc Hvc Hn Hpre full_name body polled.
  rewrite (deploy_reaches_polling serving_path model_version args w s model_name
             project_id python_version x vr op_name Hm Hp Hv Hc Hvc Hn).
  fold full_name. fold body. split.
  - intros Ho. rewrite Ho. erewrite bind_Raise.
    2:{ rewrite wait_for_deploy_skip by exact Hpre. cbn [wait_for_deploy].
        erewrite bind_Raise by apply execute_Failed. reflexivity. }
    unfold polled. cbn [heap trace]. rewrite <- !app_assoc. reflexivity.
  - intros st response version_name Ho Hdone Hresp Hname Hsd. rewrite Ho, Hsd.
    erewrite bind_Raise.
    2:{ rewrite wait_for_deploy_skip by exact Hpre.
        rewrite wait_for_deploy_done by exact Hdone.
        unfold getitem at 1. rewrite Hresp. erewrite bind_Return by reflexivity.
        unfold getitem. rewrite Hname. erewrite bind_Return by reflexivity.
        erewrite bind_Raise by apply execute_Failed. reflexivity. }
    unfold polled. cbn [heap trace]. rewrite <- !app_assoc. reflexivity.
Qed.

(** * Further properties of the serialisation *)

(** X18: the key sort of the serialisation reaches every depth: two
    execution-properties mappings with the same content, whatever the order
    in which the items of the mappings inside them were entered, are
    serialised to the same text and give the same argument list. *)
Theorem serialisation_ignores_nested_insertion_order (exec_properties1
    exec_properties2 : dict) :
  canon (VDict exec_properties1) = canon (VDict exec_properties2) ->
  json_dumps (VDict exec_properties1) = json_dumps (VDict exec_properties2) /\
  (forall executor_class_path json_inputs json_outputs,
      job_args executor_class_path json_inputs json_outputs
        (json_dumps (VDict exec_properties1))
      = job_args executor_class_path json_inputs json_outputs
          (json_dumps (VDict exec_properties2))).
Proof.
  intros H.
  assert (E : json_dumps (VDict exec_properties1) = json_dumps (VDict exec_properties2)).
  { rewrite <- (json_dumps_canon (VDict exec_properties1)).
    rewrite <- (json_dumps_canon (VDict exec_properties2)).
    rewrite H. reflexivity. }
  split; [exact E|]. intros. rewrite E. reflexivity.
Qed.


Lemma printable_app (a b : string) :
  printable (a +:+ b) = printable a && printable b.
Proof.
  induction a as [|c a IH]; [reflexivity|].
  change (String c a +:+ b) with (String c (a +:+ b)).
  cbn [printable]. rewrite IH, andb_assoc. reflexivity.
Qed.

Lemma printable_concat (sep : string) (l : list string) :
  printable sep = true -> Forall (fun s => printable s = true) l ->
  printable (String.concat sep l) = true.
Proof.
  intros Hsep. induction 1 as [|x l Hx Hl IH]; [reflexivity|].
  cbn [String.concat]. destruct l as [|y l]; [exact Hx|].
  change (printable (x +:+ sep +:+ String.concat sep (y :: l)) = true).
  rewrite !printable_app, Hx, Hsep, IH. reflexivity.
Qed.

Lemma printable_uint (d : Decimal.uint) :
  printable (NilEmpty.string_of_uint d) = true.
Proof. induction d; cbn [NilEmpty.string_of_uint printable]; try rewrite IHd; reflexivity. Qed.

Lemma printable_decimal (z : Z) : printable (decimal z) = true.
Proof.
  unfold decimal, NilZero.string_of_int, NilZero.string_of_uint.
  destruct (Z.to_int z) as [d|d]; destruct d; try reflexivity;
    try apply (printable_uint (_ _));
    cbn [printable]; rewrite (printable_uint (_ _)); reflexivity.
Qed.

Lemma printable_escape_char (a : ascii) : printable (escape_char a) = true.
Proof. destruct a as [[] [] [] [] [] [] [] []]; reflexivity. Qed.

Lemma printable_escape (s : string) : printable (escape s) = true.
Proof.
  induction s as [|c s IH]; [reflexivity|].
  cbn [escape]. rewrite printable_app, printable_escape_char, IH. reflexivity.
Qed.

Lemma printable_json_string (s : string) : printable (json_string s) = true.
Proof.
  unfold json_string.
  change (printable (String dquote EmptyString +:+ escape s +:+ String dquote EmptyString)
          = true).
  rewrite !printable_app, printable_escape. reflexivity.
Qed.

Lemma Forall_insert_by_key {A} (P : string * A -> Prop) x l :
  P x -> Forall P l -> Forall P (insert_by_key x l).
Proof.
  intros Hx. induction 1 as [|y l Hy Hl IH]; cbn [insert_by_key].
  - repeat constructor. exact Hx.
  - destruct (String.leb (fst x) (fst y)); repeat constructor; assumption.
Qed.

Lemma Forall_sort_items {A} (P : string * A -> Prop) l :
  Forall P l -> Forall P (sort_items l).
Proof.
  induction 1 as [|x l Hx Hl IH]; [constructor|].
  apply Forall_insert_by_key; assumption.
Qed.

(** X19: the text of the execution properties handed to the job is made of
    printable ASCII characters only, whatever the properties hold: the
    serialisation escapes every control character and every character
    beyond the tilde. *)
Theorem serialised_exec_properties_are_printable_ascii (v : value) :
  printable (json_dumps v) = true.
Proof.
  induction v as [| b | z | s | l IH | d IH] using value_nested_ind.
  - reflexivity.
  - destruct b; reflexivity.
  - apply printable_decimal.
  - apply printable_json_string.
  - cbn [json_dumps]. rewrite !printable_app.
    rewrite printable_concat; [reflexivity | reflexivity |].
    apply Forall_map. exact IH.
  - cbn [json_dumps]. rewrite !printable_app.
    rewrite printable_concat; [reflexivity | reflexivity |].
    apply Forall_map. apply Forall_sort_items. apply Forall_map.
    eapply Forall_impl; [exact IH|].
    intros [k x] Hx. unfold json_item. cbn [fst snd] in *.
    rewrite !printable_app, printable_json_string, Hx. reflexivity.
Qed.

(** * The serialised execution properties in the argument list *)

Lemma insert_by_key_Permutation {A} (x : string * A) (l : list (string * A)) :
  Permutation (insert_by_key x l) (x :: l).
Proof.
  induction l as [|y l IH]; cbn [insert_by_key]; [reflexivity|].
  destruct (String.leb (fst x) (fst y)); [reflexivity|].
  rewrite IH. apply perm_swap.
Qed.

Lemma sort_items_self_Permutation {A} (l : list (string * A)) :
  Permutation (sort_items l) l.
Proof.
  induction l as [|x l IH]; [reflexivity|].
  cbn [sort_items fold_right]. fold (sort_items l).
  rewrite insert_by_key_Permutation. constructor. exact IH.
Qed.

Lemma json_dumps_object_text (d : dict) :
  json_dumps (VDict d) = object_text (sort_items d).
Proof.
  unfold object_text. cbn [json_dumps].
  rewrite <- (map_sort_items json_dumps d), map_map. reflexivity.
Qed.

Lemma training_input_args (d : dict) (args : list value) (labels : value) :
  dict_get (training_input d args labels) "args" = Some (VList args).
Proof.
  unfold training_input.
  rewrite dict_get_remove_ne by discriminate.
  rewrite dict_get_set_ne by discriminate.
  apply dict_get_set_eq.
Qed.

Lemma start_aip_training_working_copy input_dict output_dict exec_properties
    executor_class_path l job_id w s d :
  heap s !! l = Some d ->
  heap (snd (start_aip_training input_dict output_dict exec_properties
               executor_class_path l job_id w s)) !! fresh (dom (heap s))
  = Some (dict_set (with_master_config d) "args"
            (VList (job_args executor_class_path (jsonify_artifact_dict input_dict)
                      (jsonify_artifact_dict output_dict)
                      (json_dumps (VDict exec_properties))))).
Proof.
  intros Hl.
  rewrite (start_aip_training_run input_dict output_dict exec_properties
             executor_class_path l job_id w s d Hl).
  cbn [snd heap].
  rewrite lookup_insert_ne; [apply lookup_insert_eq|].
  intros E.
  match type of E with
  | fresh (dom ?h) = _ => apply (is_fresh (dom h))
  end.
  rewrite E. apply elem_of_dom. rewrite lookup_insert_eq. eauto.
Qed.

(** C9: the execution properties reach the argument list of the job as one
    text that does not depend on the order in which the mapping was built.
    For two mappings with the same items (distinct keys, any order of
    entry) there is one list of those items in ascending key order, and
    the text is the opening brace, these items as [key: value] with the
    key as a JSON string, separated by a comma and a space, and the
    closing brace.  For either mapping that text is what [json.dumps]
    gives, what the log line shows, and the eighth and last element of
    the argument list, right after the flag [--exec-properties], that the
    call stores under [args] in its working copy of the training inputs;
    and it is the argument list of the job submitted once the labels
    assignment yields a value. *)
Theorem exec_properties_are_serialised_in_key_order input_dict output_dict
    (exec_properties1 exec_properties2 : dict) executor_class_path l job_id w s d :
  heap s !! l = Some d ->
  NoDup (map fst exec_properties1) ->
  Permutation exec_properties1 exec_properties2 ->
  exists items text,
    Permutation items exec_properties1 /\
    key_sorted items /\
    text = "{" +:+ String.concat ", "
                     (map (fun kv => json_string (fst kv) +:+ ": " +:+ json_dumps (snd kv))
                        items)
           +:+ "}" /\
    forall exec_properties,
      exec_properties = exec_properties1 \/ exec_properties = exec_properties2 ->
      let args :=
        VList [VStr "--executor_class_path"; VStr executor_class_path;
               VStr "--inputs"; VStr (jsonify_artifact_dict input_dict);
               VStr "--outputs"; VStr (jsonify_artifact_dict output_dict);
               VStr "--exec-properties"; VStr text] in
      let run := start_aip_training input_dict output_dict exec_properties
                   executor_class_path l job_id w s in
      json_dumps (VDict exec_properties) = text /\
      In (ELog Info ("json_exec_properties='" +:+ text +:+ "'.")) (trace (snd run)) /\
      (exists training_inputs,
          heap (snd run) !! fresh (dom (heap s)) = Some training_inputs /\
          dict_get training_inputs "args" = Some args) /\
      (forall labels project,
          dict_get d "project" = Some project ->
          exists pre post job_id' training_input,
            trace (snd (start_aip_training_body (fun _ => ret labels) input_dict
                          output_dict exec_properties executor_class_path l job_id w s))
            = pre ++ EJobsCreate [("jobId", VStr job_id');
                                  ("trainingInput", VDict training_input)]
                                 ("projects/" +:+ fmt project) :: post /\
            dict_get training_input "args" = Some args).
Proof.
  intros Hl Hnd HP.
  exists (sort_items exec_properties1), (object_text (sort_items exec_properties1)).
  split_and!.
  - apply sort_items_self_Permutation.
  - apply sort_items_sorted.
  - reflexivity.
  - intros exec_properties Hep args run.
    assert (E : json_dumps (VDict exec_properties)
                = object_text (sort_items exec_properties1)).
    { rewrite <- json_dumps_object_text.
      destruct Hep as [-> | ->]; [reflexivity|].
      symmetry. apply json_dumps_Permutation; assumption. }
    split_and!.
    + exact E.
    + subst run.
      rewrite (start_aip_training_run input_dict output_dict exec_properties
                 executor_class_path l job_id w s d Hl).
      cbn [snd trace]. apply in_or_app. right.
      unfold preparation_log. rewrite E. right. right. left. reflexivity.
    + eexists. split.
      * apply start_aip_training_working_copy, Hl.
      * rewrite dict_get_set_eq. unfold job_args. rewrite E. reflexivity.
    + intros labels project Hp.
      destruct (submitted_job_spec labels input_dict output_dict exec_properties
                  executor_class_path l job_id w s d project Hl Hp)
        as (pre & post & Htr).
      exists pre, post. do 2 eexists. split; [exact Htr|].
      rewrite training_input_args. unfold job_args. rewrite E. reflexivity.
Qed.

End Runner.

(** * The statements on sample calls *)

(** C1: a deployment whose operation is reported done with an error.
    With the reply the service gives for a failed operation (an [error] and
    no [response]) the call ends with the key error of the missing
    [response]: no runtime error carries the error detail and nothing is
    logged as an error.  With a [response] next to the [error], the default
    version is set and the call returns. *)
Theorem deploy_done_with_error_is_not_reported :
  let failed := VDict [("name", VStr "op1"); ("done", VBool true); ("error", sample_error)] in
  let odd := VDict [("done", VBool true); ("error", sample_error);
                    ("response", VDict [("name", VStr "v7")])] in
  let run st :=
    deploy_model_for_aip_prediction "1.15.0" 3 json_dumps "gs://b/model" "7"
      sample_serving_args
      (sample_serving_world (Replied VNone) [Replied (VDict [("done", VBool false)]); Replied st])
      (mkState ∅ []) in
  fst (run failed) = Raise (KeyError "response") /\
  Forall (fun e => forall m, e <> ELog Error m) (trace (snd (run failed))) /\
  fst (run odd) = Return tt /\
  In (ESetDefault "projects/p1/models/m/versions/v7") (trace (snd (run odd))).
Proof.
  cbv zeta. split_and!.
  - vm_compute. reflexivity.
  - vm_compute. repeat constructor; intros m; discriminate.
  - vm_compute. reflexivity.
  - vm_compute. tauto.
Qed.

(** C2: a call with caller labels.  The labels expression fails on its two
    positional arguments, so the call ends with a type error before any job
    is submitted; and where [update] does accept its argument, it evaluates
    to [None] while the merged mapping stays in the receiver. *)
Theorem labels_are_not_merged :
  let run :=
    start_aip_training "0.15.0" sample_labels unit (fun _ => "{}"%string) json_dumps
      tt tt sample_exec_properties "trainer.Executor" 7%nat None
      (sample_training_world "SUCCEEDED") sample_store in
  fst run = Raise (TypeError "update expected at most 1 argument, got 2") /\
  Forall (fun e => forall body parent, e <> EJobsCreate body parent) (trace (snd run)) /\
  dict_update sample_labels [VDict [("team", VStr "ml")]]
  = inr (sample_labels ++ [("team", VStr "ml")], VNone).
Proof.
  cbv zeta. split_and!.
  - vm_compute. reflexivity.
  - vm_compute. repeat constructor; intros b p; discriminate.
  - reflexivity.
Qed.

Local Abbreviation sample_run exec_properties world :=
  (start_aip_training "0.15.0" sample_labels unit (fun _ => "{}"%string) py_repr
     tt tt exec_properties "trainer.Executor" 7%nat None world sample_store).

Local Abbreviation sample_repaired_run world :=
  (start_aip_training_body "0.15.0" unit (fun _ => "{}"%string) py_repr
     (fun _ => ret VNone) tt tt sample_exec_properties "trainer.Executor" 7%nat None
     world sample_store).

Lemma sample_run_eq exec_properties world :
  sample_run exec_properties world
  = (Raise (TypeError "update expected at most 1 argument, got 2"),
     snd (sample_run exec_properties world)) /\
  trace (snd (sample_run exec_properties world))
  = preparation_log unit (fun _ => "{}"%string) tt tt exec_properties.
Proof.
  rewrite (start_aip_training_run "0.15.0" sample_labels unit (fun _ => "{}"%string)
             py_repr tt tt exec_properties "trainer.Executor" 7%nat None world
             sample_store sample_training_inputs eq_refl).
  split; reflexivity.
Qed.

(** C3: the call of the function as written never reaches its polling
    loop.  Whatever the status replies the service holds ready, among them
    PENDING, PENDING, RUNNING, SUCCEEDED, the call ends with the type error
    of the labels assignment: it is not left waiting, and no status request
    and no sleep is in its trace.  The loop these replies would drive, run
    on its own, does issue one request per reply with a sleep between two. *)
Theorem polling_loop_is_never_entered (replies : list reply) :
  let run := sample_run sample_exec_properties
               (mkTrainingWorld sample_clock (Replied VNone) replies) in
  fst run = Raise (TypeError "update expected at most 1 argument, got 2") /\
  Forall (fun e => (forall name, e <> EJobsGet name) /\ (forall n, e <> ESleep n))
         (trace (snd run)) /\
  trace (snd (poll_job "projects/p1/jobs/j" (sample_waiting ++ [sample_state "SUCCEEDED"])
                sample_store))
  = [EJobsGet "projects/p1/jobs/j"; ESleep 30;
     EJobsGet "projects/p1/jobs/j"; ESleep 30;
     EJobsGet "projects/p1/jobs/j"; ESleep 30;
     EJobsGet "projects/p1/jobs/j"].
Proof.
  cbv zeta.
  destruct (sample_run_eq sample_exec_properties
              (mkTrainingWorld sample_clock (Replied VNone) replies)) as [E Etr].
  split_and!.
  - rewrite E. reflexivity.
  - rewrite Etr. repeat constructor; intros ?; discriminate.
  - vm_compute. reflexivity.
Qed.

(** C4: the call of the function as written is never decided by the state
    of the job.  With a job the service reports FAILED, or SUCCEEDED, after any
    replies before it, the call ends with the type error of the labels
    assignment: it does not return, it raises no runtime error, and it logs
    nothing as an error. *)
Theorem job_state_never_decides_the_call (waiting : list reply) (final : string) :
  let run := sample_run sample_exec_properties
               (mkTrainingWorld sample_clock (Replied VNone)
                  (waiting ++ [sample_state final])) in
  fst run = Raise (TypeError "update expected at most 1 argument, got 2") /\
  fst run <> Return tt /\
  (forall msg, fst run <> Raise (RuntimeError msg)) /\
  Forall (fun e => forall msg, e <> ELog Error msg) (trace (snd run)).
Proof.
  cbv zeta.
  destruct (sample_run_eq sample_exec_properties
              (mkTrainingWorld sample_clock (Replied VNone)
                 (waiting ++ [sample_state final]))) as [E Etr].
  split_and!.
  - rewrite E. reflexivity.
  - rewrite E. discriminate.
  - intros msg. rewrite E. discriminate.
  - rewrite Etr. repeat constructor; intros ?; discriminate.
Qed.

(** C8: a job configuration without [masterConfig].  The call of the
    function as written puts the default image, tagged with the release
    version, into its working copy, and then ends with the type error of
    the labels assignment: no job is submitted, so no payload carries the
    image. *)
Theorem default_image_is_never_submitted (world : training_world) :
  let run := sample_run sample_exec_properties world in
  dict_get sample_training_inputs "masterConfig" = None /\
  fst run = Raise (TypeError "update expected at most 1 argument, got 2") /\
  Forall (fun e => forall body parent, e <> EJobsCreate body parent) (trace (snd run)) /\
  exists training_inputs,
    heap (snd run) !! fresh (dom (heap sample_store)) = Some training_inputs /\
    dict_get training_inputs "masterConfig"
    = Some (VDict [("imageUri", VStr "gcr.io/tfx-oss-public/tfx:0.15.0")]).
Proof.
  cbv zeta.
  destruct (sample_run_eq sample_exec_properties world) as [E Etr].
  split_and!.
  - reflexivity.
  - rewrite E. reflexivity.
  - rewrite Etr. repeat constructor; intros ? ?; discriminate.
  - eexists. split.
    + apply (start_aip_training_working_copy "0.15.0" sample_labels unit
               (fun _ => "{}"%string) py_repr tt tt sample_exec_properties
               "trainer.Executor" 7%nat None world sample_store sample_training_inputs).
      reflexivity.
    + reflexivity.
Qed.



Local Abbreviation sample_body labels final :=
  (start_aip_training_body "0.15.0" unit (fun _ => "{}"%string) json_dumps
     (fun _ => ret labels) tt tt sample_exec_properties "trainer.Executor" 7%nat None
     (sample_training_world final) sample_store).

Local Abbreviation sample_call final :=
  (start_aip_training "0.15.0" sample_labels unit (fun _ => "{}"%string) json_dumps
     tt tt sample_exec_properties "trainer.Executor" 7%nat None
     (sample_training_world final) sample_store).

Local Ltac nonterminal_sample :=
  repeat constructor; eexists _, _; split_and!; reflexivity.

Lemma polling_exits_exactly_on_terminal_state_witness :
  Forall nonterminal_reply sample_waiting /\
  poll_job "projects/p1/jobs/j" (sample_waiting ++ [sample_state "SUCCEEDED"])
    (mkState ∅ [])
  = (Return (VDict [("state", VStr "SUCCEEDED")]),
     mkState ∅ (polling_events "projects/p1/jobs/j" 3)).
Proof.
  assert (H : Forall nonterminal_reply sample_waiting) by nonterminal_sample.
  split; [exact H|].
  exact (proj1 (proj2 (polling_exits_exactly_on_terminal_state
                         "projects/p1/jobs/j" sample_waiting (mkState ∅ []) H))
           [("state", VStr "SUCCEEDED")] (VStr "SUCCEEDED") [] eq_refl
           (or_introl eq_refl)).
Defined.

Lemma caller_training_inputs_unchanged_witness :
  heap sample_store !! 7%nat = Some sample_training_inputs /\
  heap (snd (sample_call "SUCCEEDED")) !! 7%nat = Some sample_training_inputs /\
  heap (snd (sample_body VNone "FAILED")) !! 7%nat = Some sample_training_inputs.
Proof.
  assert (H : heap sample_store !! 7%nat = Some sample_training_inputs) by reflexivity.
  split; [exact H|]. split.
  - exact (proj1 (caller_training_inputs_unchanged "0.15.0" sample_labels unit
                    (fun _ => "{}"%string) json_dumps tt tt sample_exec_properties
                    "trainer.Executor" 7%nat None (sample_training_world "SUCCEEDED")
                    sample_store sample_training_inputs H)).
  - exact (proj1 (proj2 (caller_training_inputs_unchanged "0.15.0" sample_labels unit
                    (fun _ => "{}"%string) json_dumps tt tt sample_exec_properties
                    "trainer.Executor" 7%nat None (sample_training_world "FAILED")
                    sample_store sample_training_inputs H)) VNone).
Defined.

Lemma job_failed_or_succeeded_witness :
  heap sample_store !! 7%nat = Some sample_training_inputs /\
  dict_get sample_training_inputs "project" = Some (VStr "p1") /\
  Forall nonterminal_reply sample_waiting /\
  fst (sample_repaired_run (sample_training_world "FAILED"))
  = Raise (RuntimeError
             ("Job 'projects/p1/jobs/tfx_20191104093007' did not succeed.  "
              +:+ "Detailed response {'state': 'FAILED'}.")) /\
  fst (sample_repaired_run (sample_training_world "SUCCEEDED")) = Return tt.
Proof.
  assert (H1 : heap sample_store !! 7%nat = Some sample_training_inputs) by reflexivity.
  assert (H2 : dict_get sample_training_inputs "project" = Some (VStr "p1")) by reflexivity.
  assert (H3 : Forall nonterminal_reply sample_waiting) by nonterminal_sample.
  split_and!; [exact H1 | exact H2 | exact H3 | |].
  - destruct (proj1 (job_failed_or_succeeded "0.15.0" unit (fun _ => "{}"%string)
                       py_repr VNone tt tt sample_exec_properties "trainer.Executor"
                       7%nat None (sample_training_world "FAILED") sample_store
                       sample_training_inputs (VStr "p1") VNone sample_waiting
                       [("state", VStr "FAILED")] (VStr "FAILED") []
                       H1 H2 eq_refl eq_refl H3 eq_refl) eq_refl)
      as (msg & Hrun & Hmsg & _).
    rewrite Hrun, Hmsg. reflexivity.
  - exact (proj2 (job_failed_or_succeeded "0.15.0" unit (fun _ => "{}"%string)
                    py_repr VNone tt tt sample_exec_properties "trainer.Executor"
                    7%nat None (sample_training_world "SUCCEEDED") sample_store
                    sample_training_inputs (VStr "p1") VNone sample_waiting
                    [("state", VStr "SUCCEEDED")] (VStr "SUCCEEDED") []
                    H1 H2 eq_refl eq_refl H3 eq_refl) eq_refl).
Defined.

Lemma default_image_when_master_config_omitted_witness :
  heap sample_store !! 7%nat = Some sample_training_inputs /\
  dict_get sample_training_inputs "project" = Some (VStr "p1") /\
  dict_get sample_training_inputs "masterConfig" = None /\
  exists pre post job_spec ti,
    trace (snd (sample_body VNone "SUCCEEDED"))
    = pre ++ EJobsCreate job_spec "projects/p1" :: post /\
    dict_get job_spec "trainingInput" = Some (VDict ti) /\
    dict_get ti "masterConfig"
    = Some (VDict [("imageUri", VStr "gcr.io/tfx-oss-public/tfx:0.15.0")]).
Proof.
  split_and!; [reflexivity | reflexivity | reflexivity |].
  exact (default_image_when_master_config_omitted "0.15.0" unit (fun _ => "{}"%string)
           json_dumps VNone tt tt sample_exec_properties "trainer.Executor" 7%nat None
           (sample_training_world "SUCCEEDED") sample_store sample_training_inputs
           (VStr "p1") eq_refl eq_refl eq_refl).
Defined.


Lemma model_creation_conflict_is_not_fatal_witness :
  dict_get sample_serving_args "model_name" = Some (VStr "m") /\
  dict_get sample_serving_args "project_id" = Some (VStr "p1") /\
  ztable_get _PYTHON_VERSIONS 3 = Some "3.5"%string /\
  (exists tl,
      trace (snd (deploy_model_for_aip_prediction "1.15.0" 3 json_dumps "gs://b/model" "7"
                    sample_serving_args
                    (sample_serving_world (Failed (HttpError 409 "conflict")) [])
                    (mkState ∅ [])))
      = model_creation_events "1.15.0" json_dumps "7" sample_serving_args
          (VStr "m") (VStr "p1")
        ++ ELog Warn "Model m already exists"
        :: EVersionsCreate
             (version_body "1.15.0" "7" "gs://b/model" (VList []) "3.5")
             "projects/p1/models/m" :: tl) /\
  fst (deploy_model_for_aip_prediction "1.15.0" 3 json_dumps "gs://b/model" "7"
         sample_serving_args
         (sample_serving_world (Failed (HttpError 403 "forbidden")) [])
         (mkState ∅ []))
  = Raise (RuntimeError "AI Platform Push failed: forbidden").
Proof.
  split_and!; [reflexivity | reflexivity | reflexivity | |].
  - exact (proj2 (proj1 (model_creation_conflict_is_not_fatal "1.15.0" 3 json_dumps
                           "gs://b/model" "7" sample_serving_args
                           (sample_serving_world (Failed (HttpError 409 "conflict")) [])
                           (mkState ∅ []) (VStr "m") (VStr "p1") "3.5" 409 "conflict"
                           eq_refl eq_refl eq_refl eq_refl) eq_refl)).
  - rewrite (proj2 (model_creation_conflict_is_not_fatal "1.15.0" 3 json_dumps
                      "gs://b/model" "7" sample_serving_args
                      (sample_serving_world (Failed (HttpError 403 "forbidden")) [])
                      (mkState ∅ []) (VStr "m") (VStr "p1") "3.5" 403 "forbidden"
                      eq_refl eq_refl eq_refl eq_refl) ltac:(discriminate)).
    reflexivity.
Defined.

Lemma exec_properties_are_serialised_in_key_order_witness :
  heap sample_store !! 7%nat = Some sample_training_inputs /\
  NoDup (map fst sample_exec_properties) /\
  Permutation sample_exec_properties (rev sample_exec_properties) /\
  let text := String.concat (String dquote EmptyString)
                ["{"; "module_file"; ": "; "gs://b/m.py"; ", "; "train_steps"; ": 100}"] in
  json_dumps (VDict sample_exec_properties) = text /\
  json_dumps (VDict (rev sample_exec_properties)) = text /\
  exists training_inputs,
    heap (snd (sample_run (rev sample_exec_properties) (sample_training_world "SUCCEEDED")))
      !! 8%nat = Some training_inputs /\
    dict_get training_inputs "args"
    = Some (VList [VStr "--executor_class_path"; VStr "trainer.Executor";
                   VStr "--inputs"; VStr "{}"; VStr "--outputs"; VStr "{}";
                   VStr "--exec-properties"; VStr text]).
Proof.
  assert (H1 : heap sample_store !! 7%nat = Some sample_training_inputs) by reflexivity.
  assert (H2 : NoDup (map fst sample_exec_properties)) by compute_done.
  assert (H3 : Permutation sample_exec_properties (rev sample_exec_properties))
    by apply Permutation_rev.
  split_and!; [exact H1 | exact H2 | exact H3 |].
  destruct (exec_properties_are_serialised_in_key_order "0.15.0" sample_labels unit
              (fun _ => "{}"%string) py_repr tt tt sample_exec_properties
              (rev sample_exec_properties) "trainer.Executor" 7%nat None
              (sample_training_world "SUCCEEDED") sample_store sample_training_inputs
              H1 H2 H3) as (items & text & _ & _ & _ & Hall).
  destruct (Hall sample_exec_properties (or_introl eq_refl)) as (E1 & _).
  destruct (Hall (rev sample_exec_properties) (or_intror eq_refl))
    as (E2 & _ & Hcopy & _).
  subst text. cbv zeta. split_and!.
  - reflexivity.
  - exact E2.
  - exact Hcopy.
Defined.


(** On a host whose time zone is not UTC, here one hour ahead of it, the
    timestamp of the default identifier is not the UTC time. *)
Lemma default_job_id_is_not_utc_timestamp :
  ~ (forall c : clock,
        valid_datetime (now c) -> valid_datetime (utcnow c) ->
        job_id_timestamp (choose_job_id None c) = Some (utcnow c)).
Proof.
  intros H. specialize (H sample_clock).
  assert (H1 : valid_datetime (now sample_clock)) by (unfold valid_datetime; simpl; lia).
  assert (H2 : valid_datetime (utcnow sample_clock)) by (unfold valid_datetime; simpl; lia).
  specialize (H H1 H2). vm_compute in H. discriminate.
Qed.

(** ** Runs of the model on the scenarios of the specification *)

Example json_dumps_sample :
  json_dumps (VDict [("b", VInt 2); ("a", VList [VNone; VBool true; VStr "x"])])
  = String.concat (String dquote EmptyString)
      ["{"; "a"; ": [null, true, "; "x"; "], "; "b"; ": 2}"].
Proof. reflexivity. Qed.

(** A job with [job_config = {'project': 'p1'}], no [masterConfig] and no
    job identifier, reported SUCCEEDED on the first status check: the body
    returns after one create call and one get call. *)
Example training_scenario :
  let run :=
    start_aip_training_body "0.15.0" unit (fun _ => "{}"%string) json_dumps
      (fun _ => ret VNone) tt tt [] "trainer.Executor" 7%nat None
      (mkTrainingWorld sample_clock (Replied VNone) [sample_state "SUCCEEDED"])
      (mkState {[ 7%nat := [("project", VStr "p1")] ]} []) in
  fst run = Return tt /\
  List.filter (fun e => match e with ELog _ _ => false | _ => true end) (trace (snd run))
  = [EBuild;
     EJobsCreate
       [("jobId", VStr "tfx_20191104093007");
        ("trainingInput",
         VDict [("masterConfig",
                 VDict [("imageUri", VStr "gcr.io/tfx-oss-public/tfx:0.15.0")]);
                ("args",
                 VList [VStr "--executor_class_path"; VStr "trainer.Executor";
                        VStr "--inputs"; VStr "{}"; VStr "--outputs"; VStr "{}";
                        VStr "--exec-properties"; VStr "{}"]);
                ("labels", VNone)])]
       "projects/p1";
     EJobsGet "projects/p1/jobs/tfx_20191104093007"].
Proof. cbv zeta. split; vm_compute; reflexivity. Qed.

(** A deployment to an existing model (the create call answers with a
    conflict) whose operation is done, with no error, at the third status
    check: one set-default call, for the version the operation names. *)
Example serving_scenario :
  let run :=
    deploy_model_for_aip_prediction "1.15.0" 3 json_dumps "gs://b/model" "7"
      sample_serving_args
      (sample_serving_world (Failed (HttpError 409 "conflict"))
         [Replied (VDict [("done", VBool false)]);
          Replied (VDict []);
          Replied (VDict [("done", VBool true);
                          ("response", VDict [("name", VStr "v7")])])])
      (mkState ∅ []) in
  fst run = Return tt /\
  List.filter (fun e => match e with ESetDefault _ => true | _ => false end)
    (trace (snd run))
  = [ESetDefault "projects/p1/models/m/versions/v7"].
Proof. cbv zeta. split; vm_compute; reflexivity. Qed.

(** * The further properties on sample calls *)

Local Abbreviation sample_body_on d job_id world :=
  (start_aip_training_body "0.15.0" unit (fun _ => "{}"%string) json_dumps
     (fun _ => ret VNone) tt tt sample_exec_properties "trainer.Executor" 7%nat job_id
     world (sample_store_of d)).

Local Abbreviation sample_deploy major world :=
  (deploy_model_for_aip_prediction "1.15.0" major json_dumps "gs://b/model" "7"
     sample_serving_args world (mkState ∅ [])).

Local Ltac in_progress_sample :=
  repeat constructor; eexists; split_and!; reflexivity.

Lemma start_aip_training_always_raises_witness :
  heap sample_store !! 7%nat = Some sample_training_inputs /\
  fst (sample_call "SUCCEEDED")
  = Raise (TypeError "update expected at most 1 argument, got 2").
Proof.
  split; [reflexivity|].
  exact (proj1 (start_aip_training_always_raises "0.15.0" sample_labels unit
                  (fun _ => "{}"%string) json_dumps tt tt sample_exec_properties
                  "trainer.Executor" 7%nat None (sample_training_world "SUCCEEDED")
                  sample_store sample_training_inputs eq_refl)).
Defined.

Lemma missing_project_is_a_key_error_witness :
  heap (sample_store_of [("scaleTier", VStr "BASIC")]) !! 7%nat
  = Some [("scaleTier", VStr "BASIC")] /\
  dict_get [("scaleTier", VStr "BASIC")] "project" = None /\
  fst (sample_body_on [("scaleTier", VStr "BASIC")] None
         (sample_training_world "SUCCEEDED"))
  = Raise (KeyError "project").
Proof.
  split_and!; [reflexivity | reflexivity |].
  exact (proj1 (missing_project_is_a_key_error "0.15.0" unit (fun _ => "{}"%string)
                  json_dumps VNone tt tt sample_exec_properties "trainer.Executor"
                  7%nat None (sample_training_world "SUCCEEDED")
                  (sample_store_of [("scaleTier", VStr "BASIC")])
                  [("scaleTier", VStr "BASIC")] eq_refl eq_refl)).
Defined.

Lemma caller_master_config_is_kept_when_true_witness :
  heap (sample_store_of sample_custom_inputs) !! 7%nat = Some sample_custom_inputs /\
  dict_get sample_custom_inputs "project" = Some (VStr "p1") /\
  dict_get sample_custom_inputs "masterConfig"
  = Some (VDict [("imageUri", VStr "gcr.io/mine/trainer:1")]) /\
  exists pre post job_spec ti,
    trace (snd (sample_body_on sample_custom_inputs None
                  (sample_training_world "SUCCEEDED")))
    = pre ++ EJobsCreate job_spec "projects/p1" :: post /\
    dict_get job_spec "trainingInput" = Some (VDict ti) /\
    dict_get ti "masterConfig"
    = Some (VDict [("imageUri", VStr "gcr.io/mine/trainer:1")]).
Proof.
  split_and!; [reflexivity | reflexivity | reflexivity |].
  exact (caller_master_config_is_kept_when_true "0.15.0" unit (fun _ => "{}"%string)
           json_dumps VNone tt tt sample_exec_properties "trainer.Executor" 7%nat None
           (sample_training_world "SUCCEEDED") (sample_store_of sample_custom_inputs)
           sample_custom_inputs (VStr "p1")
           (VDict [("imageUri", VStr "gcr.io/mine/trainer:1")])
           eq_refl eq_refl eq_refl).
Defined.

Lemma submitted_training_input_witness :
  heap (sample_store_of sample_custom_inputs) !! 7%nat = Some sample_custom_inputs /\
  dict_get sample_custom_inputs "project" = Some (VStr "p1") /\
  NoDup (map fst sample_custom_inputs) /\
  exists pre post job_spec ti,
    trace (snd (sample_body_on sample_custom_inputs None
                  (sample_training_world "SUCCEEDED")))
    = pre ++ EJobsCreate job_spec "projects/p1" :: post /\
    dict_get job_spec "trainingInput" = Some (VDict ti) /\
    dict_get ti "project" = None /\
    dict_get ti "scaleTier" = Some (VStr "BASIC").
Proof.
  assert (Hnd : NoDup (map fst sample_custom_inputs)) by compute_done.
  split_and!; [reflexivity | reflexivity | exact Hnd |].
  destruct (submitted_training_input "0.15.0" unit (fun _ => "{}"%string)
              json_dumps VNone tt tt sample_exec_properties "trainer.Executor" 7%nat None
              (sample_training_world "SUCCEEDED") (sample_store_of sample_custom_inputs)
              sample_custom_inputs (VStr "p1") eq_refl eq_refl Hnd)
    as (pre & post & job_spec & ti & Htr & Hti & Hproj & _ & _ & Hother).
  exists pre, post, job_spec, ti. split_and!; [exact Htr | exact Hti | exact Hproj |].
  rewrite (Hother "scaleTier"%string) by discriminate. reflexivity.
Defined.

Lemma caller_job_id_is_used_witness :
  heap sample_store !! 7%nat = Some sample_training_inputs /\
  dict_get sample_training_inputs "project" = Some (VStr "p1") /\
  exists pre post ti,
    trace (snd (sample_body_on sample_training_inputs (Some "job_42"%string)
                  (sample_training_world "SUCCEEDED")))
    = pre ++ EJobsCreate [("jobId", VStr "job_42"); ("trainingInput", VDict ti)]
                         "projects/p1"
          :: EJobsGet "projects/p1/jobs/job_42" :: post.
Proof.
  split_and!; [reflexivity | reflexivity |].
  exact (proj1 (caller_job_id_is_used "0.15.0" unit (fun _ => "{}"%string)
                  json_dumps VNone tt tt sample_exec_properties "trainer.Executor" 7%nat
                  (sample_training_world "SUCCEEDED") sample_store
                  sample_training_inputs (VStr "p1") "j" "ob_42" VNone
                  (sample_state "PENDING")
                  [sample_state "PENDING"; sample_state "RUNNING"; sample_state "SUCCEEDED"]
                  eq_refl eq_refl eq_refl eq_refl)).
Defined.

Lemma job_creation_failure_propagates_witness :
  heap sample_store !! 7%nat = Some sample_training_inputs /\
  dict_get sample_training_inputs "project" = Some (VStr "p1") /\
  fst (sample_body_on sample_training_inputs None
         (mkTrainingWorld sample_clock (Failed (HttpError 403 "forbidden")) []))
  = Raise (HttpError 403 "forbidden").
Proof.
  split_and!; [reflexivity | reflexivity |].
  exact (proj1 (job_creation_failure_propagates "0.15.0" unit (fun _ => "{}"%string)
                  json_dumps VNone tt tt sample_exec_properties "trainer.Executor" 7%nat
                  None (mkTrainingWorld sample_clock (Failed (HttpError 403 "forbidden")) [])
                  sample_store sample_training_inputs (VStr "p1")
                  (HttpError 403 "forbidden") eq_refl eq_refl eq_refl)).
Defined.

Lemma status_failure_propagates_witness :
  heap sample_store !! 7%nat = Some sample_training_inputs /\
  dict_get sample_training_inputs "project" = Some (VStr "p1") /\
  Forall nonterminal_reply sample_waiting /\
  fst (sample_body_on sample_training_inputs None
         (mkTrainingWorld sample_clock (Replied VNone)
            (sample_waiting ++ [Failed (HttpError 503 "unavailable")])))
  = Raise (HttpError 503 "unavailable").
Proof.
  assert (H3 : Forall nonterminal_reply sample_waiting) by nonterminal_sample.
  split_and!; [reflexivity | reflexivity | exact H3 |].
  exact (proj1 (status_failure_propagates "0.15.0" unit (fun _ => "{}"%string)
                  json_dumps VNone tt tt sample_exec_properties "trainer.Executor" 7%nat
                  None
                  (mkTrainingWorld sample_clock (Replied VNone)
                     (sample_waiting ++ [Failed (HttpError 503 "unavailable")]))
                  sample_store sample_training_inputs (VStr "p1") VNone sample_waiting
                  (Failed (HttpError 503 "unavailable")) []
                  eq_refl eq_refl eq_refl eq_refl H3)
           (HttpError 503 "unavailable") eq_refl).
Defined.

Lemma job_is_created_once_witness :
  heap sample_store !! 7%nat = Some sample_training_inputs /\
  dict_get sample_training_inputs "project" = Some (VStr "p1") /\
  exists job_spec tl,
    trace (snd (sample_body_on sample_training_inputs None
                  (sample_training_world "FAILED")))
    = preparation_log unit (fun _ => "{}"%string) tt tt sample_exec_properties
      ++ [ELog Info "Submitting job='tfx_20191104093007', project='p1' to AI Platform.";
          EJobsCreate job_spec "projects/p1"]
      ++ tl /\
    Forall (polling_effect "projects/p1/jobs/tfx_20191104093007") tl.
Proof.
  split_and!; [reflexivity | reflexivity |].
  exact (job_is_created_once "0.15.0" unit (fun _ => "{}"%string)
           json_dumps VNone tt tt sample_exec_properties "trainer.Executor" 7%nat
           None (sample_training_world "FAILED") sample_store sample_training_inputs
           (VStr "p1") eq_refl eq_refl).
Defined.


Lemma missing_serving_argument_is_a_key_error_witness :
  dict_get [("project_id", VStr "p1")] "model_name" = None /\
  fst (deploy_model_for_aip_prediction "1.15.0" 3 json_dumps "gs://b/model" "7"
         [("project_id", VStr "p1")] (sample_serving_world (Replied VNone) [])
         (mkState ∅ []))
  = Raise (KeyError "model_name") /\
  fst (deploy_model_for_aip_prediction "1.15.0" 3 json_dumps "gs://b/model" "7"
         [("model_name", VStr "m")] (sample_serving_world (Replied VNone) [])
         (mkState ∅ []))
  = Raise (KeyError "project_id").
Proof.
  split_and!; [reflexivity | |].
  - rewrite (proj1 (missing_serving_argument_is_a_key_error "1.15.0" 3 json_dumps
                      "gs://b/model" "7" [("project_id", VStr "p1")]
                      (sample_serving_world (Replied VNone) []) (mkState ∅ [])) eq_refl).
    reflexivity.
  - rewrite (proj2 (missing_serving_argument_is_a_key_error "1.15.0" 3 json_dumps
                      "gs://b/model" "7" [("model_name", VStr "m")]
                      (sample_serving_world (Replied VNone) []) (mkState ∅ []))
               (VStr "m") eq_refl eq_refl).
    reflexivity.
Defined.

Lemma unsupported_interpreter_stops_deployment_witness :
  dict_get sample_serving_args "model_name" = Some (VStr "m") /\
  dict_get sample_serving_args "project_id" = Some (VStr "p1") /\
  4 <> 2 /\ 4 <> 3 /\
  fst (sample_deploy 4 (sample_serving_world (Replied VNone) []))
  = Raise (KeyError "4").
Proof.
  split_and!; [reflexivity | reflexivity | discriminate | discriminate |].
  rewrite (unsupported_interpreter_stops_deployment "1.15.0" 4 json_dumps
             "gs://b/model" "7" sample_serving_args
             (sample_serving_world (Replied VNone) []) (mkState ∅ [])
             (VStr "m") (VStr "p1") eq_refl eq_refl
             ltac:(discriminate) ltac:(discriminate)).
  reflexivity.
Defined.

Lemma deployment_sets_the_new_version_as_default_witness :
  dict_get sample_serving_args "model_name" = Some (VStr "m") /\
  dict_get sample_serving_args "project_id" = Some (VStr "p1") /\
  ztable_get _PYTHON_VERSIONS 3 = Some "3.5"%string /\
  Forall in_progress_reply sample_in_progress /\
  truthy (default VNone (dict_get sample_done "done")) = true /\
  fst (sample_deploy 3
         (sample_serving_world (Replied VNone)
            (sample_in_progress ++ [Replied (VDict sample_done)])))
  = Return tt.
Proof.
  assert (H : Forall in_progress_reply sample_in_progress) by in_progress_sample.
  split_and!; [reflexivity | reflexivity | reflexivity | exact H | reflexivity |].
  rewrite (deployment_sets_the_new_version_as_default "1.15.0" 3 json_dumps
             "gs://b/model" "7" sample_serving_args
             (sample_serving_world (Replied VNone)
                (sample_in_progress ++ [Replied (VDict sample_done)]))
             (mkState ∅ []) (VStr "m") (VStr "p1") "3.5" VNone
             [("name", VStr "op1")] (VStr "op1") sample_in_progress sample_done []
             [("name", VStr "v7")] (VStr "v7") VNone
             eq_refl eq_refl eq_refl eq_refl eq_refl eq_refl eq_refl H
             eq_refl eq_refl eq_refl eq_refl).
  reflexivity.
Defined.

Lemma deployment_error_is_raised_witness :
  dict_get sample_serving_args "model_name" = Some (VStr "m") /\
  dict_get sample_serving_args "project_id" = Some (VStr "p1") /\
  ztable_get _PYTHON_VERSIONS 3 = Some "3.5"%string /\
  Forall in_progress_reply sample_in_progress /\
  dict_get sample_failing "error" = Some sample_error /\
  fst (sample_deploy 3
         (sample_serving_world (Replied VNone)
            (sample_in_progress ++ [Replied (VDict sample_failing)])))
  = Raise (RuntimeError ("Failed to deploy model to AI Platform for serving: "
                         +:+ json_dumps sample_error)).
Proof.
  assert (H : Forall in_progress_reply sample_in_progress) by in_progress_sample.
  split_and!; [reflexivity | reflexivity | reflexivity | exact H | reflexivity |].
  rewrite (deployment_error_is_raised "1.15.0" 3 json_dumps
             "gs://b/model" "7" sample_serving_args
             (sample_serving_world (Replied VNone)
                (sample_in_progress ++ [Replied (VDict sample_failing)]))
             (mkState ∅ []) (VStr "m") (VStr "p1") "3.5" VNone
             [("name", VStr "op1")] (VStr "op1") sample_in_progress sample_failing []
             sample_error
             eq_refl eq_refl eq_refl eq_refl eq_refl eq_refl eq_refl H
             eq_refl eq_refl).
  reflexivity.
Defined.

Lemma deployment_waits_while_in_progress_witness :
  dict_get sample_serving_args "model_name" = Some (VStr "m") /\
  dict_get sample_serving_args "project_id" = Some (VStr "p1") /\
  ztable_get _PYTHON_VERSIONS 3 = Some "3.5"%string /\
  Forall in_progress_reply sample_in_progress /\
  fst (sample_deploy 3 (sample_serving_world (Replied VNone) sample_in_progress))
  = Pending.
Proof.
  assert (H : Forall in_progress_reply sample_in_progress) by in_progress_sample.
  split_and!; [reflexivity | reflexivity | reflexivity | exact H |].
  rewrite (deployment_waits_while_in_progress "1.15.0" 3 json_dumps
             "gs://b/model" "7" sample_serving_args
             (sample_serving_world (Replied VNone) sample_in_progress)
             (mkState ∅ []) (VStr "m") (VStr "p1") "3.5" VNone
             [("name", VStr "op1")] (VStr "op1")
             eq_refl eq_refl eq_refl eq_refl eq_refl eq_refl H).
  reflexivity.
Defined.

Lemma version_creation_failure_propagates_witness :
  dict_get sample_serving_args "model_name" = Some (VStr "m") /\
  dict_get sample_serving_args "project_id" = Some (VStr "p1") /\
  ztable_get _PYTHON_VERSIONS 3 = Some "3.5"%string /\
  fst (sample_deploy 3
         (mkServingWorld (Replied VNone) (Failed (HttpError 409 "conflict")) []
            (Replied VNone)))
  = Raise (HttpError 409 "conflict").
Proof.
  split_and!; [reflexivity | reflexivity | reflexivity |].
  rewrite (proj1 (version_creation_failure_propagates "1.15.0" 3 json_dumps
                    "gs://b/model" "7" sample_serving_args
                    (mkServingWorld (Replied VNone) (Failed (HttpError 409 "conflict")) []
                       (Replied VNone))
                    (mkState ∅ []) (VStr "m") (VStr "p1") "3.5" VNone
                    eq_refl eq_refl eq_refl eq_refl)
             (HttpError 409 "conflict") eq_refl).
  reflexivity.
Defined.

Lemma other_model_creation_failure_propagates_witness :
  dict_get sample_serving_args "model_name" = Some (VStr "m") /\
  dict_get sample_serving_args "project_id" = Some (VStr "p1") /\
  ztable_get _PYTHON_VERSIONS 3 = Some "3.5"%string /\
  (forall status text, TypeError "bad body" <> HttpError status text) /\
  fst (sample_deploy 3 (sample_serving_world (Failed (TypeError "bad body")) []))
  = Raise (TypeError "bad body").
Proof.
  assert (H : forall status text, TypeError "bad body" <> HttpError status text)
    by (intros status text; discriminate).
  split_and!; [reflexivity | reflexivity | reflexivity | exact H |].
  rewrite (other_model_creation_failure_propagates "1.15.0" 3 json_dumps
             "gs://b/model" "7" sample_serving_args
             (sample_serving_world (Failed (TypeError "bad body")) [])
             (mkState ∅ []) (VStr "m") (VStr "p1") "3.5" (TypeError "bad body")
             eq_refl eq_refl eq_refl eq_refl H).
  reflexivity.
Defined.

Lemma operation_failure_propagates_witness :
  dict_get sample_serving_args "model_name" = Some (VStr "m") /\
  dict_get sample_serving_args "project_id" = Some (VStr "p1") /\
  ztable_get _PYTHON_VERSIONS 3 = Some "3.5"%string /\
  Forall in_progress_reply sample_in_progress /\
  fst (sample_deploy 3
         (sample_serving_world (Replied VNone)
            (sample_in_progress ++ [Failed (HttpError 503 "unavailable")])))
  = Raise (HttpError 503 "unavailable").
Proof.
  assert (H : Forall in_progress_reply sample_in_progress) by in_progress_sample.
  split_and!; [reflexivity | reflexivity | reflexivity | exact H |].
  rewrite (proj1 (operation_failure_propagates "1.15.0" 3 json_dumps
                    "gs://b/model" "7" sample_serving_args
                    (sample_serving_world (Replied VNone)
                       (sample_in_progress ++ [Failed (HttpError 503 "unavailable")]))
                    (mkState ∅ []) (VStr "m") (VStr "p1") "3.5" VNone
                    [("name", VStr "op1")] (VStr "op1") sample_in_progress []
                    (HttpError 503 "unavailable")
                    eq_refl eq_refl eq_refl eq_refl eq_refl eq_refl H) eq_refl).
  reflexivity.
Defined.

Lemma runtime_version_is_major_minor_witness :
  no_dot "2" = true /\ no_dot "1" = true /\
  fst (_get_tf_runtime_version "2.1.0-rc1" (mkState ∅ [])) = Return "2.1"%string /\
  length (trace (snd (_get_tf_runtime_version "2.1.0-rc1" (mkState ∅ [])))) = 1%nat.
Proof.
  split_and!; [reflexivity | reflexivity | |].
  - rewrite (proj1 (runtime_version_is_major_minor "2" "1" "2.1.0-rc1" (mkState ∅ [])
                      eq_refl eq_refl
                      (or_intror (ex_intro _ "0-rc1"%string eq_refl)))).
    reflexivity.
  - rewrite (proj1 (runtime_version_is_major_minor "2" "1" "2.1.0-rc1" (mkState ∅ [])
                      eq_refl eq_refl
                      (or_intror (ex_intro _ "0-rc1"%string eq_refl)))).
    reflexivity.
Defined.

Lemma serialisation_ignores_nested_insertion_order_witness :
  canon (VDict sample_nested1) = canon (VDict sample_nested2) /\
  sample_nested1 <> sample_nested2 /\
  json_dumps (VDict sample_nested1) = json_dumps (VDict sample_nested2).
Proof.
  split_and!; [reflexivity | discriminate |].
  exact (proj1 (serialisation_ignores_nested_insertion_order sample_nested1
                  sample_nested2 eq_refl)).
Defined.
